(** * RTF - Reader Text File: the ingestion and query core of [RTF/rtf.py]

    A shallow embedding of [DatabaseManager], [DataImporter] and the two
    [AppUI] callbacks that touch the data ([search_data], [export_data]),
    together with the part of their environment they rely on: Python's
    [os.path] and [str] helpers, the pandas calls [read_csv], [to_sql],
    [read_sql_query] and [to_excel], and the SQLite engine that runs the
    statements the program builds as text.

    Conventions.
    - A Python [str] is a [string]; one [ascii] stands for one character
      (code points up to U+00FF), and texts hold no NUL character.
    - A call of the program has one of three outcomes: it returns, it raises,
      or it leaves the fragment of SQLite and pandas behaviour described here
      ([Beyond]).  Nothing is proved about [Beyond] outcomes.
    - The program writes table and column names into its statements as
      text, so the engine is modelled from the text on: a tokenizer with
      comments, and a parser and an evaluator for the statements the program
      can produce from names made of identifiers, integers, placeholders,
      LIKE and OR.  Cells are NULL, integers or texts. *)

From Stdlib Require Import String Ascii List ZArith Lia Bool.
From Stdlib Require Import DecimalString.
Import ListNotations.

Local Open Scope string_scope.
Local Open Scope Z_scope.

(** ** Python strings *)

Module PyStr.

Definition char_in (lo hi c : ascii) : bool :=
  ((nat_of_ascii lo <=? nat_of_ascii c)%nat && (nat_of_ascii c <=? nat_of_ascii hi)%nat)%bool.

Definition is_upper (c : ascii) : bool := char_in "A" "Z" c.
Definition is_lower (c : ascii) : bool := char_in "a" "z" c.
Definition is_digit (c : ascii) : bool := char_in "0" "9" c.
Definition is_letter (c : ascii) : bool := is_upper c || is_lower c.

(** ASCII case folding, the only folding SQLite applies by default. *)
Definition to_lower (c : ascii) : ascii :=
  if is_upper c then ascii_of_nat (nat_of_ascii c + 32) else c.

Fixpoint lower (s : string) : string :=
  match s with
  | EmptyString => EmptyString
  | String c r => String (to_lower c) (lower r)
  end.

Fixpoint all_chars (f : ascii -> bool) (s : string) : bool :=
  match s with
  | EmptyString => true
  | String c r => f c && all_chars f r
  end.

Fixpoint any_char (f : ascii -> bool) (s : string) : bool :=
  match s with
  | EmptyString => false
  | String c r => f c || any_char f r
  end.

Definition len (s : string) : Z := Z.of_nat (String.length s).

(** [s[i:j]] for [0 <= i], [0 <= j]. *)
Definition slice (s : string) (i j : Z) : string :=
  String.substring (Z.to_nat i) (Z.to_nat (j - i)) s.

(** [s[i:]] for [0 <= i]. *)
Definition slice_from (s : string) (i : Z) : string :=
  String.substring (Z.to_nat i) (String.length s - Z.to_nat i) s.

(** [s.rfind(c)] for a one-character [c]: the highest index holding [c],
    or [-1].  [rfind_from k] works on the suffix that starts at index [k]. *)
Fixpoint rfind_from (k : Z) (c : ascii) (s : string) : Z :=
  match s with
  | EmptyString => -1
  | String d r =>
      let later := rfind_from (k + 1) c r in
      if 0 <=? later then later else if Ascii.eqb d c then k else -1
  end.

Definition rfind (c : ascii) (s : string) : Z := rfind_from 0 c s.

(** [s.endswith(suffix)]. *)
Definition endswith (s suffix : string) : bool :=
  let n := String.length s in
  let m := String.length suffix in
  (m <=? n)%nat && String.eqb (String.substring (n - m) m s) suffix.

(** [s.replace(old, new)] where [old] and [new] are one character each. *)
Fixpoint replace (old new : ascii) (s : string) : string :=
  match s with
  | EmptyString => EmptyString
  | String c r => String (if Ascii.eqb c old then new else c) (replace old new r)
  end.

End PyStr.

(** ** [os.path] (POSIX flavour; Tk's file dialogs return [/]-separated paths) *)

Module OsPath.
Import PyStr.

(** [posixpath.basename]: [i = p.rfind('/') + 1; return p[i:]]. *)
Definition basename (p : string) : string :=
  let i := rfind "/" p + 1 in
  slice_from p i.

(** [genericpath._splitext] with [sep = '/'], no [altsep], [extsep = '.']:
    the extension starts at the last dot, unless that dot is not after the
    last separator or only dots stand between the separator and it. *)
Definition splitext (p : string) : string * string :=
  let sepIndex := rfind "/" p in
  let dotIndex := rfind "." p in
  if sepIndex <? dotIndex then
    if all_chars (Ascii.eqb ".") (slice p (sepIndex + 1) dotIndex)
    then (p, EmptyString)
    else (slice p 0 dotIndex, slice_from p dotIndex)
  else (p, EmptyString).

End OsPath.

(** ** The table name of an imported file ([DataImporter.import_file], lines 58-59) *)

Definition derive_table_name (file_path : string) : string :=
  let table_name := fst (OsPath.splitext (OsPath.basename file_path)) in
  PyStr.replace " " "_" (PyStr.replace "-" "_" table_name).

(** ** Outcomes of a call *)

Inductive sqlite_error :=
| NoSuchTable (name : string)
| NoSuchColumn (name : string)
| SyntaxError (near : string)
| TableExists (name : string)
| DuplicateColumn (name : string)
| ReservedName (name : string)
| WrongBindings (used supplied : nat).

Inductive exn :=
| DatabaseError (e : sqlite_error)      (* pandas.errors.DatabaseError *)
| OperationalError (e : sqlite_error)   (* sqlite3.OperationalError *)
| ValueError (msg : string)
| FileNotFoundError (path : string)
| EmptyDataError.

Inductive outcome (A : Type) :=
| Ok (a : A)
| Raise (e : exn)
| Beyond.

Arguments Ok {A} a.
Arguments Raise {A} e.
Arguments Beyond {A}.

Definition bind {A B : Type} (m : outcome A) (k : A -> outcome B) : outcome B :=
  match m with
  | Ok a => k a
  | Raise e => Raise e
  | Beyond => Beyond
  end.

Notation "x <- m ;; k" := (bind m (fun x => k))
  (at level 61, m at next level, right associativity).

(** ** Data model *)

(** A stored cell.  REAL cells are outside the model. *)
Inductive value :=
| VNull
| VInt (z : Z)
| VText (s : string).

Definition row := list value.

(** A pandas DataFrame: column labels and the rows under them. *)
Record DataFrame := mkDataFrame {
  df_columns : list string;
  df_rows : list row
}.

(** [pd.DataFrame()] *)
Definition empty_frame : DataFrame := mkDataFrame [] [].

(** [df.empty]: some axis has length zero. *)
Definition df_empty (df : DataFrame) : bool :=
  match df_columns df, df_rows df with
  | [], _ => true
  | _, [] => true
  | _, _ => false
  end.

(** A table of the database file: its declared columns, in order, and its
    rows in rowid order. *)
Record Table := mkTable {
  tbl_columns : list string;
  tbl_rows : list row
}.

(** The database behind [self.conn]: its tables in [sqlite_master] order. *)
Definition Store := list (string * Table).

(** ** SQLite *)

Module Sqlite.
Import PyStr.

(** *** Tokens *)

Inductive token :=
| TId (name : string)    (* an identifier, as written *)
| TKw (word : string)    (* a keyword, in lower case *)
| TInt (n : Z)
| TQMark
| TStar
| TLP
| TRP
| TBad.                  (* any token outside the fragment *)

Definition keywords : list string :=
  ["abort"; "action"; "add"; "after"; "all"; "alter"; "always"; "analyze";
   "and"; "as"; "asc"; "attach"; "autoincrement"; "before"; "begin";
   "between"; "by"; "cascade"; "case"; "cast"; "check"; "collate"; "column";
   "commit"; "conflict"; "constraint"; "create"; "cross"; "current";
   "current_date"; "current_time"; "current_timestamp"; "database";
   "default"; "deferrable"; "deferred"; "delete"; "desc"; "detach";
   "distinct"; "do"; "drop"; "each"; "else"; "end"; "escape"; "except";
   "exclude"; "exclusive"; "exists"; "explain"; "fail"; "filter"; "first";
   "following"; "for"; "foreign"; "from"; "full"; "generated"; "glob";
   "group"; "groups"; "having"; "if"; "ignore"; "immediate"; "in"; "index";
   "indexed"; "initially"; "inner"; "insert"; "instead"; "intersect"; "into";
   "is"; "isnull"; "join"; "key"; "last"; "left"; "like"; "limit"; "match";
   "materialized"; "natural"; "no"; "not"; "nothing"; "notnull"; "null";
   "nulls"; "of"; "offset"; "on"; "or"; "order"; "others"; "outer"; "over";
   "partition"; "plan"; "pragma"; "preceding"; "primary"; "query"; "raise";
   "range"; "recursive"; "references"; "regexp"; "reindex"; "release";
   "rename"; "replace"; "restrict"; "returning"; "right"; "rollback"; "row";
   "rows"; "savepoint"; "select"; "set"; "table"; "temp"; "temporary";
   "then"; "ties"; "to"; "transaction"; "trigger"; "unbounded"; "union";
   "unique"; "update"; "using"; "vacuum"; "values"; "view"; "virtual";
   "when"; "where"; "window"; "with"; "within"; "without"].

(** Keywords that are never read as a name: using one where a table or a
    column is expected is a syntax error. *)
Definition reserved : list string :=
  ["select"; "from"; "where"; "group"; "order"; "having"; "limit"; "union";
   "table"; "index"].

Definition mem (s : string) (l : list string) : bool :=
  existsb (String.eqb s) l.

Definition is_space (c : ascii) : bool :=
  Ascii.eqb c " " || Ascii.eqb c "009" || Ascii.eqb c "010"
  || Ascii.eqb c "012" || Ascii.eqb c "013".

Definition is_high (c : ascii) : bool := (128 <=? nat_of_ascii c)%nat.

Definition is_ident_start (c : ascii) : bool :=
  is_letter c || Ascii.eqb c "_" || is_high c.

Definition is_ident_char (c : ascii) : bool :=
  is_ident_start c || is_digit c || Ascii.eqb c "$".

Definition digit_value (c : ascii) : Z :=
  Z.of_nat (nat_of_ascii c) - 48.

Definition word_token (w : string) : token :=
  if mem (lower w) keywords then TKw (lower w) else TId w.

(** *** The tokenizer, as a machine over the characters of the statement *)

Inductive lex_state :=
| LStart
| LWord (acc : string)   (* inside an identifier or keyword *)
| LNum (acc : Z)         (* inside an integer literal *)
| LJunk                  (* inside a token outside the fragment *)
| LLine                  (* inside a [--] comment *)
| LBlock.                (* inside a [/*] comment *)

Definition snoc (s : string) (c : ascii) : string := s ++ String c EmptyString.

(** What the pending state contributes when the input ends.  A [/*] comment
    that is never closed runs to the end of the statement. *)
Definition flush (st : lex_state) : list token :=
  match st with
  | LWord acc => [word_token acc]
  | LNum n => [TInt n]
  | LJunk => [TBad]
  | LStart | LLine | LBlock => []
  end.

(** Lookahead into the text after the current character. *)
Definition starts (f : ascii -> bool) (r : string) : bool :=
  match r with
  | String d _ => f d
  | EmptyString => false
  end.

(** After a [/]: a [*] with at least one character behind it opens a
    comment. *)
Definition opens_comment (r : string) : bool :=
  match r with
  | String d (String _ _) => Ascii.eqb d "*"
  | _ => false
  end.

(** One move of the machine on character [c], with [r] the text after it:
    the tokens completed, the new state, and whether the first character of
    [r] is consumed together with [c]. *)
Definition start (c : ascii) (r : string) : list token * lex_state * bool :=
  if is_space c then ([], LStart, false)
  else if is_ident_start c then ([], LWord (String c EmptyString), false)
  else if is_digit c then ([], LNum (digit_value c), false)
  else if Ascii.eqb c "*" then ([TStar], LStart, false)
  else if Ascii.eqb c "(" then ([TLP], LStart, false)
  else if Ascii.eqb c ")" then ([TRP], LStart, false)
  else if Ascii.eqb c "?" then
    if starts is_digit r then ([], LJunk, false) else ([TQMark], LStart, false)
  else if Ascii.eqb c "-" then
    if starts (Ascii.eqb "-") r then ([], LLine, true) else ([TBad], LStart, false)
  else if Ascii.eqb c "/" then
    if opens_comment r then ([], LBlock, true) else ([TBad], LStart, false)
  else ([TBad], LStart, false).

Definition emit (t : token) (m : list token * lex_state * bool) : list token * lex_state * bool :=
  let '(ts, st, skip) := m in (t :: ts, st, skip).

Definition step (st : lex_state) (c : ascii) (r : string) : list token * lex_state * bool :=
  match st with
  | LStart => start c r
  | LWord acc =>
      if is_ident_char c then ([], LWord (snoc acc c), false)
      else emit (word_token acc) (start c r)
  | LNum n =>
      if is_digit c then ([], LNum (10 * n + digit_value c), false)
      else if is_ident_char c || Ascii.eqb c "." then ([], LJunk, false)
      else emit (TInt n) (start c r)
  | LJunk =>
      if is_ident_char c || Ascii.eqb c "." then ([], LJunk, false)
      else emit TBad (start c r)
  | LLine =>
      if Ascii.eqb c "010" then ([], LStart, false) else ([], LLine, false)
  | LBlock =>
      if Ascii.eqb c "*" && starts (Ascii.eqb "/") r then ([], LStart, true)
      else ([], LBlock, false)
  end.

Fixpoint lex (st : lex_state) (s : string) {struct s} : list token :=
  match s with
  | EmptyString => flush st
  | String c r =>
      let '(ts, st', skip) := step st c r in
      ts ++ (if skip
             then match r with
                  | String _ r' => lex st' r'
                  | EmptyString => flush st'
                  end
             else lex st' r)
  end.

(** Characters at which a move looks at the text that follows. *)
Definition looks_ahead (c : ascii) : bool :=
  Ascii.eqb c "?" || Ascii.eqb c "-" || Ascii.eqb c "/" || Ascii.eqb c "*".

(** The machine run over the beginning [pre] of a statement whose end is
    not known yet: the tokens completed and the state reached, or [None]
    when a move would have to look past the end of [pre]. *)
Fixpoint lex_open (st : lex_state) (pre : string) {struct pre}
  : option (list token * lex_state) :=
  match pre with
  | EmptyString => Some ([], st)
  | String c r =>
      if (2 <=? String.length r)%nat || negb (looks_ahead c) then
        let '(ts, st', skip) := step st c r in
        let more :=
          if skip
          then match r with
               | String _ r' => lex_open st' r'
               | EmptyString => None
               end
          else lex_open st' r in
        match more with
        | Some (ts', st'') => Some ((ts ++ ts')%list, st'')
        | None => None
        end
      else None
  end.

Definition tokenize (sql : string) : list token := lex LStart sql.

(** *** Statements of the fragment

    [SELECT * FROM name WHERE p OR ... OR p [LIMIT n]], each [p] an operand or
    [operand LIKE operand], and [PRAGMA table_info(name)]. *)

Inductive atom :=
| AName (n : string)
| AInt (z : Z)
| AParam.               (* a [?] placeholder *)

Inductive pred :=
| PTruth (a : atom)
| PLike (x pat : atom).  (* [x LIKE pat] *)

Record select_stmt := mkSelect {
  sel_from : string;
  sel_where : list pred;      (* a disjunction *)
  sel_limit : option Z
}.

Inductive statement :=
| SSelect (q : select_stmt)
| STableInfo (name : string).

Inductive sql_result (A : Type) :=
| Done (a : A)
| Failed (e : sqlite_error)
| Outside.               (* not a statement of the fragment *)

Arguments Done {A} a.
Arguments Failed {A} e.
Arguments Outside {A}.

Definition sql_bind {A B : Type} (m : sql_result A) (k : A -> sql_result B) : sql_result B :=
  match m with
  | Done a => k a
  | Failed e => Failed e
  | Outside => Outside
  end.

Definition is_kw (w : string) (t : token) : bool :=
  match t with
  | TKw k => String.eqb k w
  | _ => false
  end.

(** A token where a table name is expected. *)
Definition parse_name (t : token) : sql_result string :=
  match t with
  | TId n => Done n
  | TKw k => if mem k reserved then Failed (SyntaxError k) else Outside
  | _ => Outside
  end.

(** The largest integer literal; a longer run of digits is read as a REAL. *)
Definition max_integer : Z := 9223372036854775807.

(** A token where an operand is expected. *)
Definition parse_atom (t : token) : sql_result atom :=
  match t with
  | TId n => Done (AName n)
  | TInt z => if z <=? max_integer then Done (AInt z) else Outside
  | TQMark => Done AParam
  | TKw k => if mem k reserved then Failed (SyntaxError k) else Outside
  | _ => Outside
  end.

(** The disjuncts of the WHERE clause and the tokens after them. *)
Fixpoint parse_disj (ts : list token) : sql_result (list pred * list token) :=
  match ts with
  | [] => Outside
  | a :: rest =>
      match parse_atom a with
      | Done x =>
          match rest with
          | k :: rest1 =>
              if is_kw "like" k then
                match rest1 with
                | b :: rest2 =>
                    match parse_atom b with
                    | Done y =>
                        match rest2 with
                        | k2 :: rest3 =>
                            if is_kw "or" k2 then
                              match parse_disj rest3 with
                              | Done (ps, tl) => Done (PLike x y :: ps, tl)
                              | Failed e => Failed e
                              | Outside => Outside
                              end
                            else Done ([PLike x y], rest2)
                        | [] => Done ([PLike x y], rest2)
                        end
                    | Failed e => Failed e
                    | Outside => Outside
                    end
                | [] => Outside
                end
              else if is_kw "or" k then
                match parse_disj rest1 with
                | Done (ps, tl) => Done (PTruth x :: ps, tl)
                | Failed e => Failed e
                | Outside => Outside
                end
              else Done ([PTruth x], rest)
          | [] => Done ([PTruth x], rest)
          end
      | Failed e => Failed e
      | Outside => Outside
      end
  end.

Definition parse_limit (ts : list token) : sql_result (option Z) :=
  match ts with
  | [] => Done None
  | [k; TInt n] =>
      if is_kw "limit" k && (n <=? max_integer) then Done (Some n) else Outside
  | _ => Outside
  end.

Definition parse (ts : list token) : sql_result statement :=
  match ts with
  | k1 :: TStar :: k2 :: name :: k3 :: rest =>
      if is_kw "select" k1 && is_kw "from" k2 then
        sql_bind (parse_name name) (fun t =>
        if is_kw "where" k3 then
          sql_bind (parse_disj rest) (fun '(ps, tl) =>
          sql_bind (parse_limit tl) (fun lim =>
          Done (SSelect (mkSelect t ps lim))))
        else Outside)
      else Outside
  | [k1; TId f; TLP; name; TRP] =>
      if is_kw "pragma" k1 && String.eqb (lower f) "table_info" then
        sql_bind (parse_name name) (fun t => Done (STableInfo t))
      else Outside
  | _ => Outside
  end.

(** *** Names

    Table and column names are compared without regard to ASCII case. *)

Definition same_name (a b : string) : bool := String.eqb (lower a) (lower b).

Fixpoint find_table (db : Store) (name : string) : option Table :=
  match db with
  | [] => None
  | (n, t) :: rest => if same_name n name then Some t else find_table rest name
  end.

Fixpoint column_index (cols : list string) (name : string) : option nat :=
  match cols with
  | [] => None
  | c :: rest =>
      if same_name c name then Some O
      else option_map S (column_index rest name)
  end.

Definition starts_with (prefix s : string) : bool := String.prefix prefix s.

(** Names the engine may answer by itself, taken widely: the schema tables
    and the table-valued pragmas, every name that begins like a module an
    engine can be built with (JSON, full-text search, R-tree, geopoly), and
    the other table-valued functions of such builds. *)
Definition builtin_prefixes : list string :=
  ["sqlite_"; "pragma_"; "json"; "fts"; "rtree"; "geopoly"].

Definition builtin_names : list string :=
  ["dbstat"; "bytecode"; "tables_used"; "generate_series"; "series";
   "carray"; "completion"; "stmt"; "zipfile"; "fsdir"; "csv"; "unionvtab";
   "swarmvtab"; "vfsstat"; "vtablog"; "memstat"; "checkindex"; "closure";
   "spellfix1"; "wholenumber"; "templatevtab"; "prefixes"; "percentile"].

Definition builtin_table (name : string) : bool :=
  existsb (fun p => starts_with p (lower name)) builtin_prefixes
  || mem (lower name) builtin_names.

Inductive operand :=
| OCol (i : nat)
| ORowid
| OConst (v : value).

(** A name in operand position: a column of the table; else one of the
    names of the rowid; else one of the two boolean constants. *)
Definition resolve_name (cols : list string) (n : string) : sql_result operand :=
  match column_index cols n with
  | Some i => Done (OCol i)
  | None =>
      if mem (lower n) ["rowid"; "oid"; "_rowid_"] then Done ORowid
      else if String.eqb (lower n) "true" then Done (OConst (VInt 1))
      else if String.eqb (lower n) "false" then Done (OConst (VInt 0))
      else Failed (NoSuchColumn n)
  end.

(** *** Binding

    The placeholders take the supplied parameters from left to right. *)

Definition atom_params (a : atom) : nat :=
  match a with
  | AParam => 1%nat
  | _ => 0%nat
  end.

Definition pred_params (p : pred) : nat :=
  match p with
  | PTruth a => atom_params a
  | PLike x pat => (atom_params x + atom_params pat)%nat
  end.

Definition count_params (ps : list pred) : nat :=
  fold_right (fun p n => (pred_params p + n)%nat) 0%nat ps.

Definition bind_atom (cols : list string) (a : atom) (params : list value)
  : sql_result operand * list value :=
  match a with
  | AName n => (resolve_name cols n, params)
  | AInt z => (Done (OConst (VInt z)), params)
  | AParam => (Done (OConst (hd VNull params)), tl params)
  end.

Inductive bound_pred :=
| BTruth (a : operand)
| BLike (x pat : operand).

Fixpoint bind_preds (cols : list string) (ps : list pred) (params : list value)
  : sql_result (list bound_pred) :=
  match ps with
  | [] => Done []
  | PTruth a :: rest =>
      let '(ra, params1) := bind_atom cols a params in
      sql_bind ra (fun oa =>
      sql_bind (bind_preds cols rest params1) (fun bs =>
      Done (BTruth oa :: bs)))
  | PLike x pat :: rest =>
      let '(rx, params1) := bind_atom cols x params in
      let '(rp, params2) := bind_atom cols pat params1 in
      sql_bind rx (fun ox =>
      sql_bind rp (fun op =>
      sql_bind (bind_preds cols rest params2) (fun bs =>
      Done (BLike ox op :: bs))))
  end.

(** *** Evaluation *)

(** The text a value is matched as. *)
Definition text_of (v : value) : option string :=
  match v with
  | VNull => None
  | VInt z => Some (NilZero.string_of_int (Z.to_int z))
  | VText s => Some s
  end.

(** [like pat s]: the default LIKE, with [%] for any run of characters, [_]
    for any one character, and letters compared without regard to ASCII
    case.  There is no escape character. *)
Fixpoint like (pat s : string) : bool :=
  match pat with
  | EmptyString =>
      match s with
      | EmptyString => true
      | String _ _ => false
      end
  | String c pat' =>
      if Ascii.eqb c "%" then
        (fix any_run (s : string) : bool :=
           like pat' s ||
           match s with
           | EmptyString => false
           | String _ s' => any_run s'
           end) s
      else
        match s with
        | EmptyString => false
        | String d s' =>
            (Ascii.eqb c "_" || Ascii.eqb (to_lower c) (to_lower d)) && like pat' s'
        end
  end.

(** The engine refuses LIKE patterns of more than 50000 bytes. *)
Definition pattern_limit : Z := 50000.

Inductive tri := TTrue | TFalse | TNull.

Definition eval_operand (rowid : Z) (r : row) (o : operand) : value :=
  match o with
  | OCol i => nth i r VNull
  | ORowid => VInt rowid
  | OConst v => v
  end.

(** [None]: the truth value of a text, which the fragment leaves out, or a
    pattern over the limit. *)
Definition eval_pred (rowid : Z) (r : row) (p : bound_pred) : option tri :=
  match p with
  | BTruth a =>
      match eval_operand rowid r a with
      | VNull => Some TNull
      | VInt z => Some (if Z.eqb z 0 then TFalse else TTrue)
      | VText _ => None
      end
  | BLike x pat =>
      match text_of (eval_operand rowid r pat) with
      | None => Some TNull
      | Some p =>
          if pattern_limit <? 2 * len p then None
          else
            match text_of (eval_operand rowid r x) with
            | None => Some TNull
            | Some s => Some (if like p s then TTrue else TFalse)
            end
      end
  end.

Definition is_true (t : option tri) : bool :=
  match t with
  | Some TTrue => true
  | _ => false
  end.

Definition is_none (t : option tri) : bool :=
  match t with
  | None => true
  | Some _ => false
  end.

(** Whether the WHERE clause selects the row: a disjunction is true as soon
    as one disjunct is. *)
Definition selects (ps : list bound_pred) (rowid : Z) (r : row) : option bool :=
  let vs := map (eval_pred rowid r) ps in
  if existsb is_true vs then Some true
  else if existsb is_none vs then None
  else Some false.

(** The selected rows, in rowid order; the first row has rowid [k]. *)
Fixpoint scan (ps : list bound_pred) (k : Z) (rows : list row) : option (list row) :=
  match rows with
  | [] => Some []
  | r :: rest =>
      match selects ps k r, scan ps (k + 1) rest with
      | Some b, Some out => Some (if b then r :: out else out)
      | _, _ => None
      end
  end.

Definition apply_limit (lim : option Z) (rows : list row) : sql_result (list row) :=
  match lim with
  | None => Done rows
  | Some n => if n <? 0 then Done rows else Done (firstn (Z.to_nat n) rows)
  end.

(** What a cursor holds after [execute]. *)
Inductive cursor :=
| Rows (columns : list string) (rows : list row)
| TableInfo (names : list string).   (* the [name] field of each pragma row *)

Definition run (db : Store) (stmt : statement) (params : list value) : sql_result cursor :=
  match stmt with
  | SSelect q =>
      match find_table db (sel_from q) with
      | None =>
          if builtin_table (sel_from q) then Outside
          else Failed (NoSuchTable (sel_from q))
      | Some t =>
          sql_bind (bind_preds (tbl_columns t) (sel_where q) params) (fun ps =>
          if negb (Nat.eqb (count_params (sel_where q)) (List.length params))
          then Failed (WrongBindings (count_params (sel_where q)) (List.length params))
          else
            match scan ps 1 (tbl_rows t) with
            | None => Outside
            | Some rows =>
                sql_bind (apply_limit (sel_limit q) rows) (fun out =>
                Done (Rows (tbl_columns t) out))
            end)
      end
  | STableInfo name =>
      if negb (Nat.eqb 0 (List.length params))
      then Failed (WrongBindings 0 (List.length params))
      else
        match find_table db name with
        | Some t => Done (TableInfo (tbl_columns t))
        | None => if builtin_table name then Outside else Done (TableInfo [])
        end
  end.

(** [cursor.execute(sql, params)] *)
Definition execute (db : Store) (sql : string) (params : list value) : sql_result cursor :=
  sql_bind (parse (tokenize sql)) (fun stmt => run db stmt params).

End Sqlite.

(** A name that reads as one identifier token when written into a
    statement: it starts with a letter, an underscore or a character above
    U+007F, goes on with such characters, digits and [$], and is no keyword. *)
Definition plain_name (s : string) : bool :=
  match s with
  | EmptyString => false
  | String c r =>
      Sqlite.is_ident_start c && PyStr.all_chars Sqlite.is_ident_char r
      && negb (Sqlite.mem (PyStr.lower s) Sqlite.keywords)
  end.

(** ** pandas *)

Module Pandas.
Import PyStr Sqlite.

(** What the tokenizer and the type inference of [read_csv] yield for a
    file read with a given delimiter: the labels of the header row and the
    typed data rows. *)
Record CsvText := mkCsv {
  csv_header : list string;
  csv_rows : list row
}.

(** The files on disk: a path holds no file, or a text that can be read
    with any delimiter. *)
Definition FileSystem := string -> option (ascii -> CsvText).

Definition string_of_nat (n : nat) : string :=
  NilZero.string_of_uint (Nat.to_uint n).

Fixpoint count (x : string) (l : list string) : nat :=
  match l with
  | [] => O
  | y :: rest => ((if String.eqb x y then 1 else 0) + count x rest)%nat
  end.

(** The column labels made from a header row: an empty label at position
    [i] becomes [Unnamed: i], and the occurrence number [k >= 1] of a
    repeated label [X] becomes [X.k].  [None] when a label made this way
    is already in the header, where the result depends on the pandas
    version.  [before] holds the labels to the left, [i] their number. *)
Fixpoint labels (header before rest : list string) (i : nat) : option (list string) :=
  match rest with
  | [] => Some []
  | x :: rest' =>
      let k := count x before in
      let kept := negb (String.eqb x "") && Nat.eqb k 0 in
      let label :=
        if String.eqb x "" then "Unnamed: " ++ string_of_nat i
        else if Nat.eqb k 0 then x
        else x ++ "." ++ string_of_nat k in
      if negb kept && mem label header then None
      else option_map (cons label) (labels header (x :: before) rest' (S i))
  end.

(** [pd.read_csv(path, delimiter=d)] *)
Definition read_csv (fs : FileSystem) (path : string) (delimiter : ascii) : outcome DataFrame :=
  match fs path with
  | None => Raise (FileNotFoundError path)
  | Some text =>
      let t := text delimiter in
      match csv_header t with
      | [] => Raise EmptyDataError
      | h =>
          match labels h [] h 0 with
          | Some cols => Ok (mkDataFrame cols (csv_rows t))
          | None => Beyond
          end
      end
  end.

(** [pandas.io.sql._get_valid_sqlite_name] accepts a non-empty name. *)
Definition valid_sqlite_name (n : string) : bool := negb (String.eqb n "").

(** [SQLiteDatabase.has_table]: [name = ?] against [sqlite_master], an
    exact comparison. *)
Definition has_table (db : Store) (name : string) : bool :=
  existsb (fun e => String.eqb (fst e) name) db.

(** [DROP TABLE "name"] *)
Definition drop_table (db : Store) (name : string) : Store :=
  filter (fun e => negb (same_name (fst e) name)) db.

Fixpoint repeated_column (cols : list string) : option string :=
  match cols with
  | [] => None
  | c :: rest =>
      if existsb (same_name c) rest then Some c else repeated_column rest
  end.

(** [CREATE TABLE "name" ("c1" ..., "c2" ...)] followed by the insertion of
    the rows. *)
Definition create_table (db : Store) (name : string) (cols : list string) (rows : list row)
  : sql_result Store :=
  match cols with
  | [] => Failed (SyntaxError ")")
  | _ =>
      if starts_with "sqlite_" (lower name) then Failed (ReservedName name)
      else
        match find_table db name with
        | Some _ => Failed (TableExists name)
        | None =>
            match repeated_column cols with
            | Some c => Failed (DuplicateColumn c)
            | None => Done (db ++ [(name, mkTable cols rows)])%list
            end
        end
  end.

(** [df.to_sql(name, con, if_exists="replace", index=False)] *)
Definition to_sql (df : DataFrame) (name : string) (db : Store) : outcome Store :=
  if negb (valid_sqlite_name name && forallb valid_sqlite_name (df_columns df))
  then Raise (ValueError "Empty table or column name specified")
  else
    let db1 := if has_table db name then drop_table db name else db in
    match create_table db1 name (df_columns df) (df_rows df) with
    | Done db2 => Ok db2
    | Failed e => Raise (DatabaseError e)
    | Outside => Beyond
    end.

(** [df.to_excel(path, index=False)] as the disk and the installed writer
    answer it: [None] when the call returns, the exception when it raises
    (a directory that is missing, a path that cannot be written, an
    extension no writer serves). *)
Definition ExcelWriter := string -> DataFrame -> option exn.

(** [pd.read_sql_query(sql, con, params=params)] *)
Definition read_sql_query (sql : string) (db : Store) (params : list value) : outcome DataFrame :=
  match execute db sql params with
  | Done (Rows cols rows) => Ok (mkDataFrame cols rows)
  | Done (TableInfo _) => Beyond
  | Failed e => Raise (DatabaseError e)
  | Outside => Beyond
  end.

End Pandas.

(** ** [class DatabaseManager] *)

Module DatabaseManager.
Import Sqlite Pandas.

(** Line 19. *)
Definition create_table_from_df (conn : Store) (table_name : string) (df : DataFrame)
  : outcome Store :=
  to_sql df table_name conn.

(** Lines 21-24.  The statement is fixed; its answer is the list of table
    names. *)
Definition get_tables (conn : Store) : list string := map fst conn.

(** Lines 26-29: the table name is written into the statement as it is. *)
Definition get_columns (conn : Store) (table : string) : outcome (list string) :=
  match execute conn ("PRAGMA table_info(" ++ table ++ ")") [] with
  | Done (TableInfo names) => Ok names
  | Done (Rows _ _) => Beyond
  | Failed e => Raise (OperationalError e)
  | Outside => Beyond
  end.

(** Lines 32-36: the text of the query, with the table and the column
    written into it as they are. *)
Definition search_query (table column : string) : string :=
  "
            SELECT * FROM " ++ table ++ "
            WHERE " ++ column ++ " LIKE ?
            LIMIT 500
        ".

(** Lines 31-37. *)
Definition search (conn : Store) (table column value : string) : outcome DataFrame :=
  read_sql_query (search_query table column) conn [VText ("%" ++ value ++ "%")].

End DatabaseManager.

(** ** [class DataImporter] *)

Module DataImporter.
Import Pandas.

(** Lines 45-62.  [file_path] is the answer of the file dialog, empty when
    the user cancels. *)
Definition import_file (fs : FileSystem) (db_manager : Store) (file_path : string)
  : outcome (Store * option string) :=
  if String.eqb file_path "" then Ok (db_manager, None)
  else
    df <- (if PyStr.endswith file_path ".csv"
           then read_csv fs file_path ","
           else read_csv fs file_path ";") ;;
    let table_name := derive_table_name file_path in
    conn <- DatabaseManager.create_table_from_df db_manager table_name df ;;
    Ok (conn, Some table_name).

End DataImporter.

(** ** [class AppUI] *)

Module AppUI.

(** The fields the data callbacks read and write: the database, the last
    result, the two selections, the search text and the rows on display. *)
Record t := mk {
  db : Store;
  last_df : DataFrame;
  selected_table : string;
  selected_column : string;
  search_entry : string;
  tree : list row
}.

(** Lines 104-111, on a database that holds [conn]. *)
Definition init (conn : Store) : t := mk conn empty_frame "" "" "" [].

(** How a callback ends, and the object as it then is. *)
Inductive ending :=
| Returned (ui : t)
| Raised (e : exn) (ui : t)
| Unknown.

(** Lines 190-199.  The search is evaluated before [last_df] is assigned. *)
Definition search_data (ui : t) : ending :=
  let table := selected_table ui in
  let column := selected_column ui in
  let value := search_entry ui in
  match DatabaseManager.search (db ui) table column value with
  | Ok df =>
      Returned (mk (db ui) df (selected_table ui) (selected_column ui)
                   (search_entry ui) (df_rows df))
  | Raise e => Raised e ui
  | Beyond => Unknown
  end.

(** What [export_data] does to the world outside the object. *)
Inductive effect :=
| ShowWarning (title message : string)
| ShowInfo (title message : string)
| AskSaveAs                               (* the save dialog is opened *)
| ToExcel (path : string) (df : DataFrame).  (* [to_excel] is called *)

(** Lines 201-213.  [answer] is what the save dialog returns, empty when
    the user cancels.  The callback gives the effects in their order and
    the exception it ends with, [None] when it returns; it raises nothing
    of its own, an exception of [to_excel] passes through it and the
    success dialog is then not shown. *)
Definition export_data (to_excel : Pandas.ExcelWriter) (ui : t) (answer : string)
  : list effect * option exn :=
  if df_empty (last_df ui) then
    ([ShowWarning "Aviso" "Nenhum dado para exportar."], None)
  else if String.eqb answer "" then ([AskSaveAs], None)
  else
    match to_excel answer (last_df ui) with
    | None =>
        ([AskSaveAs; ToExcel answer (last_df ui);
          ShowInfo "Sucesso" "Exportado com sucesso!"], None)
    | Some e => ([AskSaveAs; ToExcel answer (last_df ui)], Some e)
    end.

End AppUI.

(** ** Notions the statements below use *)

(** [p] occurs in [s] as a run of consecutive characters. *)
Definition substring_of (p s : string) : Prop :=
  exists a b, s = a ++ p ++ b.

(** The same, decided: [p] is a prefix of some suffix of [s]. *)
Fixpoint has_sub (p s : string) : bool :=
  String.prefix p s ||
  match s with
  | EmptyString => false
  | String _ s' => has_sub p s'
  end.

(** The parameter [search] binds to the placeholder: [f"%{value}%"]. *)
Definition like_param (value : string) : string := "%" ++ value ++ "%".

(** A pattern character that LIKE reads as a wildcard. *)
Definition is_wildcard (c : ascii) : bool := Ascii.eqb c "%" || Ascii.eqb c "_".

(** The cell of row [r] under column number [i]. *)
Definition cell (i : nat) (r : row) : value := nth i r VNull.

Definition is_null (v : value) : bool :=
  match v with
  | VNull => true
  | _ => false
  end.

(** The cell is not NULL and its text matches the LIKE pattern. *)
Definition cell_like (pat : string) (v : value) : bool :=
  match Sqlite.text_of v with
  | Some s => Sqlite.like pat s
  | None => false
  end.

(** The cell is not NULL and its text holds [p], letters compared without
    regard to ASCII case. *)
Definition cell_contains (p : string) (v : value) : bool :=
  match Sqlite.text_of v with
  | Some s => has_sub (PyStr.lower p) (PyStr.lower s)
  | None => false
  end.

(** The characters the specification calls safe in a table name. *)
Definition safe_char (c : ascii) : bool :=
  PyStr.is_letter c || PyStr.is_digit c || Ascii.eqb c "_".

(** The table name as the specification words it: every character of the
    base name without extension that is not safe becomes an underscore. *)
Fixpoint sanitize_spec (stem : string) : string :=
  match stem with
  | EmptyString => EmptyString
  | String c r => String (if safe_char c then c else "_"%char) (sanitize_spec r)
  end.

(** The delimiter [import_file] reads a path with. *)
Definition delimiter_of (file_path : string) : ascii :=
  if PyStr.endswith file_path ".csv" then ","%char else ";"%char.


(** The base name of a path without its extension. *)
Definition stem_of (file_path : string) : string :=
  fst (OsPath.splitext (OsPath.basename file_path)).

(** What lines 58-59 do to one character of the stem. *)
Definition underscore (c : ascii) : ascii :=
  if Ascii.eqb c "-" || Ascii.eqb c " " then "_"%char else c.

(** Names that the engine resolves by itself where no column has them. *)
Definition implicit_names : list string :=
  ["rowid"; "oid"; "_rowid_"; "true"; "false"].



(** The number of tables of the store that answer to [name]. *)
Definition tables_named (db : Store) (name : string) : nat :=
  List.length (filter (fun e => Sqlite.same_name (fst e) name) db).

(** ** Sample data *)

Module Sample.

(** The table of a file [people.csv] with header [id,name,city]. *)
Definition people : Table :=
  mkTable ["id"; "name"; "city"]
    [[VInt 1; VText "Alice"; VText "Porto"];
     [VInt 2; VText "Bob"; VNull];
     [VInt 3; VText "a_b"; VText "Lagos"]].

Definition db : Store := [("people", people)].

(** The table of a file [sales.csv] whose header row is [2023,note]: the
    first column is named by a year. *)
Definition sales : Table :=
  mkTable ["2023"; "note"]
    [[VNull; VText "closed"];
     [VInt 7; VText "open"]].

Definition db_sales : Store := [("sales", sales)].

(** A table of 501 rows. *)
Definition big : Table := mkTable ["n"] (repeat [VInt 1] 501).

Definition db_big : Store := [("big", big)].

(** The application after a search for Bob, with the text [1] typed into
    the column box and into the search box. *)
Definition earlier : DataFrame :=
  mkDataFrame ["id"; "name"; "city"] [[VInt 2; VText "Bob"; VNull]].

Definition ui_typed : AppUI.t :=
  AppUI.mk db earlier "people" "1" "1" (df_rows earlier).

(** The same, with a column name that no table has. *)
Definition ui_unknown : AppUI.t :=
  AppUI.mk db earlier "people" "email" "x" (df_rows earlier).

(** A file with its reading under the comma and under any other delimiter. *)
Definition file (comma other : Pandas.CsvText) : ascii -> Pandas.CsvText :=
  fun d => if Ascii.eqb d "," then comma else other.

(** A disk with three files. *)
Definition disk : Pandas.FileSystem :=
  fun path =>
    if String.eqb path "/data/order.csv" then
      Some (file (Pandas.mkCsv ["id"; "item"] [[VInt 1; VText "pen"]])
                 (Pandas.mkCsv ["id,item"] [[VText "1,pen"]]))
    else if String.eqb path "/data/pairs.csv" then
      Some (file (Pandas.mkCsv ["x"; "x"] [[VInt 1; VInt 2]])
                 (Pandas.mkCsv ["x,x"] [[VText "1,2"]]))
    else if String.eqb path "/data/people.csv" then
      Some (file (Pandas.mkCsv ["id"; "name"] [[VInt 1; VText "Alice"]; [VInt 2; VText "Bob"]])
                 (Pandas.mkCsv ["id,name"] [[VText "1,Alice"]; [VText "2,Bob"]]))
    else None.

(** The disk after [people.csv] was rewritten, with other columns and rows;
    its reading under the semicolon differs as well. *)
Definition disk_later : Pandas.FileSystem :=
  fun path =>
    if String.eqb path "/data/people.csv" then
      Some (file (Pandas.mkCsv ["name"; "city"; "age"] [[VText "Carol"; VText "Faro"; VInt 30]])
                 (Pandas.mkCsv ["name,city,age"] [[VText "Carol,Faro,30"]]))
    else disk path.

(** A writer that serves the paths under [/tmp/] and finds no other
    directory. *)
Definition writer : Pandas.ExcelWriter :=
  fun path _ =>
    if String.prefix "/tmp/" path then None else Some (FileNotFoundError path).

(** A disk whose [people.csv] reads like that of [disk] under the comma and
    differently under the semicolon. *)
Definition disk_other : Pandas.FileSystem :=
  fun path =>
    if String.eqb path "/data/people.csv" then
      Some (file (Pandas.mkCsv ["id"; "name"] [[VInt 1; VText "Alice"]; [VInt 2; VText "Bob"]])
                 (Pandas.mkCsv ["a"; "b"] [[VText "p"; VText "q"]]))
    else disk path.

End Sample.

(** ** [class AppUI], the callbacks that refresh the window *)

Module Window.

(** The application object with the widget contents the refresh callbacks
    write: the choices of the two menus and the columns of the tree. *)
Record t := mk {
  app : AppUI.t;
  table_values : list string;
  column_values : list string;
  tree_columns : list string
}.

(** How a callback ends: the window as it then is and the dialogs shown on
    the way. *)
Inductive ending :=
| Returned (w : t) (shown : list AppUI.effect)
| Raised (e : exn) (w : t) (shown : list AppUI.effect)
| Unknown.

(** The window of lines 104-110, before [load_tables] runs. *)
Definition fresh (conn : Store) : t := mk (AppUI.init conn) [] [] [].

Definition with_db (w : t) (conn : Store) : t :=
  mk (AppUI.mk conn (AppUI.last_df (app w)) (AppUI.selected_table (app w))
        (AppUI.selected_column (app w)) (AppUI.search_entry (app w))
        (AppUI.tree (app w)))
     (table_values w) (column_values w) (tree_columns w).

(** A column name the tree reads as a display column, [#n], not as a name. *)
Definition display_column (c : string) : bool := String.prefix "#" c.

(** Lines 175-188.  [column_menu.current(0)] puts the first column into the
    column box; with no column the box keeps its text. *)
Definition load_columns (w : t) (shown : list AppUI.effect) : ending :=
  let table := AppUI.selected_table (app w) in
  match DatabaseManager.get_columns (AppUI.db (app w)) table with
  | Ok columns =>
      if existsb display_column columns then Unknown
      else
        let column :=
          match columns with
          | c :: _ => c
          | [] => AppUI.selected_column (app w)
          end in
        Returned
          (mk (AppUI.mk (AppUI.db (app w)) (AppUI.last_df (app w)) table column
                 (AppUI.search_entry (app w)) [])
              (table_values w) columns columns)
          shown
  | Raise e => Raised e w shown
  | Beyond => Unknown
  end.

(** Lines 168-173.  [table_menu.current(0)] puts the first table into the
    table box. *)
Definition load_tables (w : t) (shown : list AppUI.effect) : ending :=
  let tables := DatabaseManager.get_tables (AppUI.db (app w)) in
  let w1 := mk (app w) tables (column_values w) (tree_columns w) in
  match tables with
  | [] => Returned w1 shown
  | first :: _ =>
      load_columns
        (mk (AppUI.mk (AppUI.db (app w)) (AppUI.last_df (app w)) first
               (AppUI.selected_column (app w)) (AppUI.search_entry (app w))
               (AppUI.tree (app w)))
            tables (column_values w) (tree_columns w))
        shown
  end.

(** Lines 162-166.  [file_path] is the answer of the file dialog.  A load
    that the database refuses may have dropped the old table before; the
    window after it is not described. *)
Definition import_data (fs : Pandas.FileSystem) (file_path : string) (w : t) : ending :=
  match DataImporter.import_file fs (AppUI.db (app w)) file_path with
  | Ok (conn, Some table_name) =>
      if String.eqb table_name "" then Returned (with_db w conn) []
      else
        load_tables (with_db w conn)
          [AppUI.ShowInfo "Sucesso" ("Tabela '" ++ table_name ++ "' criada!")]
  | Ok (conn, None) => Returned (with_db w conn) []
  | Raise (DatabaseError _) => Unknown
  | Raise e => Raised e w []
  | Beyond => Unknown
  end.

(** Line 111: the window when the application starts on a database. *)
Definition startup (conn : Store) : ending := load_tables (fresh conn) [].

End Window.

(** ** Further notions *)

(** A text that the tokenizer reads as one word: an identifier or a
    keyword. *)
Definition word_shaped (s : string) : bool :=
  match s with
  | EmptyString => false
  | String c r => Sqlite.is_ident_start c && PyStr.all_chars Sqlite.is_ident_char r
  end.

(** The names of a list, folded to lower case. *)
Definition folded (names : list string) : list string := map PyStr.lower names.

(** A table as a load creates it: at least one column, no empty column
    name, no two columns equal up to case. *)
Definition table_ok (tb : Table) : Prop :=
  tbl_columns tb <> [] /\
  ~ In "" (tbl_columns tb) /\
  NoDup (folded (tbl_columns tb)).

(** A store as loads build it: no two tables equal in name up to case, and
    every table as a load creates it. *)
Definition store_ok (db : Store) : Prop :=
  NoDup (folded (map fst db)) /\
  Forall (fun e => table_ok (snd e)) db.

(** An ending that leaves the held result as it was in window [w]. *)
Definition keeps_result (w : Window.t) (e : Window.ending) : Prop :=
  match e with
  | Window.Returned w' _ | Window.Raised _ w' _ =>
      AppUI.last_df (Window.app w') = AppUI.last_df (Window.app w)
  | Window.Unknown => True
  end.

(** The characters the derived table name never holds. *)
Definition never_in_name (c : ascii) : bool :=
  Ascii.eqb c "/" || Ascii.eqb c "-" || Ascii.eqb c " ".

(** ** More sample data *)

Module Sample2.

(** A store whose first table came from a file [order.csv]. *)
Definition db_order : Store :=
  [("order", mkTable ["id"; "item"] [[VInt 1; VText "pen"]]);
   ("people", Sample.people)].

(** The window after a search for Bob in [people]. *)
Definition window : Window.t :=
  Window.mk Sample.ui_unknown ["people"] ["id"; "name"; "city"] ["id"; "name"; "city"].

(** The same window over the store that begins with [order]. *)
Definition window_order : Window.t :=
  Window.mk (AppUI.mk db_order Sample.earlier "people" "name" "Bob" (df_rows Sample.earlier))
    ["order"; "people"] ["id"; "name"; "city"] ["id"; "name"; "city"].

(** A disk with a second file of base name [people], read with the
    semicolon, and a file whose name differs from [people] in case only. *)
Definition disk : Pandas.FileSystem :=
  fun path =>
    if String.eqb path "/backup/people.txt" then
      Some (Sample.file (Pandas.mkCsv ["name;age"] [[VText "Dora;41"]])
                        (Pandas.mkCsv ["name"; "age"] [[VText "Dora"; VInt 41]]))
    else if String.eqb path "/data/People.csv" then
      Some (Sample.file (Pandas.mkCsv ["id"] [[VInt 9]])
                        (Pandas.mkCsv ["id"] [[VInt 9]]))
    else Sample.disk path.

(** The store after [/data/people.csv] of [Sample.disk] was loaded. *)
Definition db_loaded : Store :=
  [("people", mkTable ["id"; "name"] [[VInt 1; VText "Alice"]; [VInt 2; VText "Bob"]])].

End Sample2.

(** * Proofs *)

Import PyStr Sqlite Pandas.

(** ** The model at work *)

Example basename_of_path : OsPath.basename "C:/data/my file.v2.txt" = "my file.v2.txt".
Proof. reflexivity. Qed.

Example splitext_last_dot : OsPath.splitext "my file.v2.txt" = ("my file.v2", ".txt").
Proof. reflexivity. Qed.

Example splitext_leading_dot : OsPath.splitext ".csv" = (".csv", "").
Proof. reflexivity. Qed.

Example derive_with_directory : derive_table_name "C:/data/my file.v2.txt" = "my_file.v2".
Proof. reflexivity. Qed.

Example tokens_of_a_search :
  tokenize (DatabaseManager.search_query "people" "name") =
  [TKw "select"; TStar; TKw "from"; TId "people"; TKw "where"; TId "name";
   TKw "like"; TQMark; TKw "limit"; TInt 500].
Proof. vm_compute. reflexivity. Qed.

Example tokens_with_comments :
  tokenize "a /* b */ c -- d
 e /* f" = [TId "a"; TId "c"; TId "e"].
Proof. vm_compute. reflexivity. Qed.

Example like_is_case_blind : like "%al%" "Alice" = true.
Proof. reflexivity. Qed.

Example like_underscore_is_one_character :
  like "a_c" "abc" = true /\ like "a_c" "ac" = false.
Proof. split; reflexivity. Qed.

Example search_for_al :
  DatabaseManager.search Sample.db "people" "name" "al" =
  Ok (mkDataFrame ["id"; "name"; "city"] [[VInt 1; VText "Alice"; VText "Porto"]]).
Proof. vm_compute. reflexivity. Qed.

Example search_in_numbers :
  DatabaseManager.search Sample.db "people" "id" "2" =
  Ok (mkDataFrame ["id"; "name"; "city"] [[VInt 2; VText "Bob"; VNull]]).
Proof. vm_compute. reflexivity. Qed.

Example search_reserved_word :
  DatabaseManager.search Sample.db "people" "order" "x" =
  Raise (DatabaseError (SyntaxError "order")).
Proof. vm_compute. reflexivity. Qed.

Example columns_of_people :
  DatabaseManager.get_columns Sample.db "people" = Ok ["id"; "name"; "city"].
Proof. vm_compute. reflexivity. Qed.

Example columns_of_missing_table :
  DatabaseManager.get_columns Sample.db "absent" = Ok [].
Proof. vm_compute. reflexivity. Qed.

Example labels_renamed :
  labels ["x"; ""; "x"; "y"; "x"] [] ["x"; ""; "x"; "y"; "x"] 0 =
  Some ["x"; "Unnamed: 1"; "x.1"; "y"; "x.2"].
Proof. vm_compute. reflexivity. Qed.

Example load_semicolon_file :
  DataImporter.import_file Sample.disk [] "/data/people.txt" =
  Raise (FileNotFoundError "/data/people.txt").
Proof. vm_compute. reflexivity. Qed.

Example export_after_search :
  AppUI.export_data Sample.writer Sample.ui_typed "/tmp/out.xlsx" =
  ([AppUI.AskSaveAs; AppUI.ToExcel "/tmp/out.xlsx" Sample.earlier;
    AppUI.ShowInfo "Sucesso" "Exportado com sucesso!"], None).
Proof. vm_compute. reflexivity. Qed.

Example export_to_missing_directory :
  AppUI.export_data Sample.writer Sample.ui_typed "/no/such/dir/out.xlsx" =
  ([AppUI.AskSaveAs; AppUI.ToExcel "/no/such/dir/out.xlsx" Sample.earlier],
   Some (FileNotFoundError "/no/such/dir/out.xlsx")).
Proof. vm_compute. reflexivity. Qed.

(** ** Strings *)

Lemma append_nil_r (s : string) : s ++ "" = s.
Proof. induction s; simpl; congruence. Qed.

Lemma append_assoc (a b c : string) : (a ++ b) ++ c = a ++ (b ++ c).
Proof. induction a; simpl; congruence. Qed.

Lemma prefix_refl_app (p b : string) : String.prefix p (p ++ b) = true.
Proof.
  induction p as [|c p IH]; simpl.
  - now destruct b.
  - destruct (ascii_dec c c); [assumption | congruence].
Qed.

Lemma prefix_split (p s : string) :
  String.prefix p s = true -> exists b, s = p ++ b.
Proof.
  revert s. induction p as [|c p IH]; intros s H.
  - now exists s.
  - destruct s as [|d s]; simpl in H; [discriminate|].
    destruct (ascii_dec c d) as [->|]; [|discriminate].
    destruct (IH _ H) as [b ->]. now exists b.
Qed.

Lemma has_sub_spec (p s : string) :
  has_sub p s = true <-> substring_of p s.
Proof.
  split.
  - induction s as [|d s IH]; cbn [has_sub]; intros H.
    + apply orb_true_iff in H as [H|H]; [|discriminate].
      destruct (prefix_split _ _ H) as [b Hb]. now exists "", b.
    + apply orb_true_iff in H as [H|H].
      * destruct (prefix_split _ _ H) as [b Hb]. exists "", b. exact Hb.
      * destruct (IH H) as (a & b & ->). now exists (String d a), b.
  - intros (a & b & ->). induction a as [|d a IH].
    + change ("" ++ p ++ b) with (p ++ b).
      destruct (p ++ b) eqn:E; cbn [has_sub]; rewrite <- E;
        now rewrite prefix_refl_app.
    + change (String d a ++ p ++ b) with (String d (a ++ p ++ b)).
      cbn [has_sub]. rewrite IH. apply orb_true_r.
Qed.

(** ** Characters *)

Lemma ident_start_not_space (c : ascii) :
  is_ident_start c = true -> is_space c = false.
Proof.
  destruct c as [[] [] [] [] [] [] [] []]; vm_compute; congruence.
Qed.

Lemma ident_start_ident_char (c : ascii) :
  is_ident_start c = true -> is_ident_char c = true.
Proof.
  unfold is_ident_char. intros ->. reflexivity.
Qed.

(** ** The tokenizer on names *)

Lemma lex_cons (st : lex_state) (c : ascii) (r : string) :
  lex st (String c r) =
  (let '(ts, st', skip) := step st c r in
   ts ++ (if skip
          then match r with
               | String _ r' => lex st' r'
               | EmptyString => flush st'
               end
          else lex st' r))%list.
Proof. reflexivity. Qed.

Lemma lex_word_run (w acc rest : string) :
  all_chars is_ident_char w = true ->
  lex (LWord acc) (w ++ rest) = lex (LWord (acc ++ w)) rest.
Proof.
  revert acc. induction w as [|c w IH]; intros acc H; simpl in H.
  - simpl. now rewrite append_nil_r.
  - apply andb_true_iff in H as [Hc Hw].
    change (String c w ++ rest) with (String c (w ++ rest)).
    rewrite lex_cons. unfold step. rewrite Hc. simpl app.
    rewrite IH by assumption. unfold snoc.
    now rewrite append_assoc.
Qed.

Lemma step_long (st : lex_state) (c : ascii) (r s : string) :
  (2 <= String.length r)%nat -> step st c (r ++ s) = step st c r.
Proof.
  destruct r as [|d [|e r]]; simpl String.length; intros H; try lia.
  reflexivity.
Qed.

Lemma step_blind (st : lex_state) (c : ascii) (r1 r2 : string) :
  looks_ahead c = false -> step st c r1 = step st c r2.
Proof.
  unfold looks_ahead. intros H.
  apply orb_false_iff in H as [H Hstar].
  apply orb_false_iff in H as [H Hslash].
  apply orb_false_iff in H as [Hq Hminus].
  unfold step, start. rewrite Hq, Hminus, Hslash, Hstar.
  destruct st; reflexivity.
Qed.

Lemma step_open (st : lex_state) (c : ascii) (r s : string) :
  (2 <=? String.length r)%nat || negb (looks_ahead c) = true ->
  step st c (r ++ s) = step st c r.
Proof.
  intros H. apply orb_true_iff in H as [H|H].
  - apply step_long. now apply Nat.leb_le.
  - apply step_blind. now apply negb_true_iff.
Qed.

Lemma lex_open_bounded (s : string) (n : nat) :
  forall pre st ts st',
    (String.length pre <= n)%nat ->
    lex_open st pre = Some (ts, st') ->
    lex st (pre ++ s) = (ts ++ lex st' s)%list.
Proof.
  induction n as [|n IH]; intros pre st ts st' Hlen H.
  - destruct pre; [|simpl in Hlen; lia].
    injection H as <- <-. reflexivity.
  - destruct pre as [|c r].
    + injection H as <- <-. reflexivity.
    + simpl in Hlen. cbn [lex_open] in H.
      destruct ((2 <=? String.length r)%nat || negb (looks_ahead c)) eqn:Hopen;
        [|discriminate].
      change (String c r ++ s) with (String c (r ++ s)).
      rewrite lex_cons, (step_open _ _ _ _ Hopen).
      destruct (step st c r) as [[ts0 st0] skip].
      destruct skip.
      * destruct r as [|d r']; [discriminate|].
        destruct (lex_open st0 r') as [[ts1 st1]|] eqn:Hmore; [|discriminate].
        injection H as <- <-.
        cbn [append]. simpl in Hlen.
        rewrite (IH r' st0 ts1 st1) by (lia || assumption).
        now rewrite app_assoc.
      * destruct (lex_open st0 r) as [[ts1 st1]|] eqn:Hmore; [|discriminate].
        injection H as <- <-.
        rewrite (IH r st0 ts1 st1) by (lia || assumption).
        now rewrite app_assoc.
Qed.

Lemma lex_open_app (pre s : string) (st st' : lex_state) (ts : list token) :
  lex_open st pre = Some (ts, st') ->
  lex st (pre ++ s) = (ts ++ lex st' s)%list.
Proof. apply (lex_open_bounded s (String.length pre)). lia. Qed.

Lemma lex_word_end (acc rest : string) :
  starts is_ident_char rest = false ->
  lex (LWord acc) rest = word_token acc :: lex LStart rest.
Proof.
  destruct rest as [|d r]; intros H; [reflexivity|].
  simpl in H. rewrite !lex_cons. unfold step. rewrite H.
  destruct (start d r) as [[ts st'] skip]. reflexivity.
Qed.

Lemma plain_name_token (n : string) :
  plain_name n = true -> word_token n = TId n.
Proof.
  destruct n as [|c r]; [discriminate|]. unfold plain_name, word_token.
  intros H. apply andb_true_iff in H as [_ H].
  apply negb_true_iff in H. now rewrite H.
Qed.

Lemma lex_name (n rest : string) :
  plain_name n = true ->
  starts is_ident_char rest = false ->
  lex LStart (n ++ rest) = TId n :: lex LStart rest.
Proof.
  intros Hn Hrest. pose proof (plain_name_token _ Hn) as Htok.
  destruct n as [|c r]; [discriminate|].
  unfold plain_name in Hn.
  apply andb_true_iff in Hn as [Hn _]. apply andb_true_iff in Hn as [Hc Hr].
  change (String c r ++ rest) with (String c (r ++ rest)).
  rewrite lex_cons. unfold step, start.
  rewrite (ident_start_not_space _ Hc), Hc. simpl app.
  rewrite lex_word_run by assumption.
  rewrite lex_word_end by assumption.
  change ("" ++ r) with r. simpl append. now rewrite Htok.
Qed.

Lemma tokens_of_search (t c : string) :
  plain_name t = true ->
  plain_name c = true ->
  tokenize (DatabaseManager.search_query t c) =
  [TKw "select"; TStar; TKw "from"; TId t; TKw "where"; TId c;
   TKw "like"; TQMark; TKw "limit"; TInt 500].
Proof.
  intros Ht Hc. unfold tokenize, DatabaseManager.search_query.
  erewrite lex_open_app by (vm_compute; reflexivity).
  rewrite lex_name; [|assumption|reflexivity].
  erewrite lex_open_app by (vm_compute; reflexivity).
  rewrite lex_name; [|assumption|reflexivity].
  reflexivity.
Qed.

Lemma tokens_of_pragma (t : string) :
  plain_name t = true ->
  tokenize ("PRAGMA table_info(" ++ t ++ ")") =
  [TKw "pragma"; TId "table_info"; TLP; TId t; TRP].
Proof.
  intros Ht. unfold tokenize.
  erewrite lex_open_app by (vm_compute; reflexivity).
  rewrite lex_name; [|assumption|reflexivity].
  reflexivity.
Qed.

(** ** [search] on plain names *)

Lemma search_plain (db : Store) (t c v : string) :
  plain_name t = true ->
  plain_name c = true ->
  DatabaseManager.search db t c v =
  match find_table db t with
  | None =>
      if builtin_table t then Beyond else Raise (DatabaseError (NoSuchTable t))
  | Some tb =>
      match resolve_name (tbl_columns tb) c with
      | Done ox =>
          match scan [BLike ox (OConst (VText (like_param v)))] 1 (tbl_rows tb) with
          | Some rows => Ok (mkDataFrame (tbl_columns tb) (firstn 500 rows))
          | None => Beyond
          end
      | Failed e => Raise (DatabaseError e)
      | Outside => Beyond
      end
  end.
Proof.
  intros Ht Hc.
  unfold DatabaseManager.search, read_sql_query, execute.
  rewrite (tokens_of_search _ _ Ht Hc).
  change (parse _)
    with (Done (SSelect (mkSelect t [PLike (AName c) AParam] (Some 500)))).
  cbn [sql_bind run sel_from sel_where sel_limit].
  destruct (find_table db t) as [tb|]; [|now destruct (builtin_table t)].
  cbn [bind_preds bind_atom hd tl sql_bind].
  destruct (resolve_name (tbl_columns tb) c) as [ox| |]; try reflexivity.
  cbn [sql_bind count_params fold_right pred_params atom_params Nat.add
       List.length Nat.eqb negb].
  fold (like_param v).
  destruct (scan _ 1 (tbl_rows tb)); reflexivity.
Qed.

Lemma scan_column (i : nat) (pat : string) (rows : list row) (k : Z) :
  2 * len pat <= pattern_limit ->
  scan [BLike (OCol i) (OConst (VText pat))] k rows =
  Some (filter (fun r => cell_like pat (cell i r)) rows).
Proof.
  intros Hlen. revert k. induction rows as [|r rows IH]; intros k; [reflexivity|].
  cbn [scan filter]. rewrite IH.
  unfold selects, cell_like, cell. cbn [map eval_pred eval_operand text_of].
  replace (pattern_limit <? 2 * len pat) with false
    by (symmetry; apply Z.ltb_ge; assumption).
  destruct (text_of (nth i r VNull)) as [s|]; [|reflexivity].
  destruct (like pat s); reflexivity.
Qed.

Lemma scan_sublist (ps : list bound_pred) (rows out : list row) (k : Z) :
  scan ps k rows = Some out -> incl out rows.
Proof.
  revert k out. induction rows as [|r rows IH]; intros k out H.
  - injection H as <-. apply incl_refl.
  - cbn [scan] in H.
    destruct (selects ps k r) as [b|]; [|discriminate].
    destruct (scan ps (k + 1) rows) as [o|] eqn:E; [|discriminate].
    injection H as <-. specialize (IH _ _ E).
    destruct b.
    + intros x [->|Hx]; [now left | right; now apply IH].
    + now apply incl_tl.
Qed.

Lemma column_index_resolve (cols : list string) (c : string) (i : nat) :
  column_index cols c = Some i -> resolve_name cols c = Done (OCol i).
Proof. unfold resolve_name. now intros ->. Qed.

(** The search over a table and a column that both exist, patterns within
    the engine's limit. *)
Lemma search_column (db : Store) (t c v : string) (tb : Table) (i : nat) :
  plain_name t = true ->
  plain_name c = true ->
  find_table db t = Some tb ->
  column_index (tbl_columns tb) c = Some i ->
  2 * len (like_param v) <= pattern_limit ->
  DatabaseManager.search db t c v =
  Ok (mkDataFrame (tbl_columns tb)
        (firstn 500 (filter (fun r => cell_like (like_param v) (cell i r)) (tbl_rows tb)))).
Proof.
  intros Ht Hc Htb Hi Hlen.
  rewrite (search_plain _ _ _ _ Ht Hc), Htb, (column_index_resolve _ _ _ Hi).
  now rewrite scan_column.
Qed.

(** The same, read backwards from a result. *)
Lemma search_column_inv (db : Store) (t c v : string) (tb : Table) (i : nat) (df : DataFrame) :
  plain_name t = true ->
  plain_name c = true ->
  find_table db t = Some tb ->
  column_index (tbl_columns tb) c = Some i ->
  DatabaseManager.search db t c v = Ok df ->
  df = mkDataFrame (tbl_columns tb)
        (firstn 500 (filter (fun r => cell_like (like_param v) (cell i r)) (tbl_rows tb))).
Proof.
  intros Ht Hc Htb Hi H.
  destruct (Z_le_gt_dec (2 * len (like_param v)) pattern_limit) as [Hlen|Hlen].
  - rewrite (search_column _ _ _ _ _ _ Ht Hc Htb Hi Hlen) in H. congruence.
  - rewrite (search_plain _ _ _ _ Ht Hc), Htb, (column_index_resolve _ _ _ Hi) in H.
    destruct (tbl_rows tb) as [|r rows] eqn:Hrows.
    + cbn in H. injection H as <-. reflexivity.
    + exfalso. cbn [scan] in H.
      unfold selects in H. cbn [map eval_pred eval_operand text_of] in H.
      replace (pattern_limit <? 2 * len (like_param v)) with true in H
        by (symmetry; apply Z.ltb_lt; lia).
      cbn in H. discriminate.
Qed.

(** ** LIKE *)

Lemma like_percent (q s : string) :
  like (String "%" q) s =
  like q s || match s with
              | EmptyString => false
              | String _ s' => like (String "%" q) s'
              end.
Proof. destruct s; reflexivity. Qed.

Lemma like_percent_only (s : string) : like "%" s = true.
Proof.
  induction s as [|d s IH]; [reflexivity|].
  rewrite like_percent, IH. apply orb_true_r.
Qed.

Lemma like_empty_param (s : string) : like (like_param "") s = true.
Proof.
  change (like_param "") with (String "%" "%").
  rewrite like_percent, like_percent_only. reflexivity.
Qed.

Lemma prefix_nil (s : string) : String.prefix "" s = true.
Proof. now destruct s. Qed.

Lemma like_literal_prefix (p s : string) :
  any_char is_wildcard p = false ->
  like (p ++ "%") s = String.prefix (lower p) (lower s).
Proof.
  revert s. induction p as [|c p IH]; intros s H.
  - cbn [append lower]. now rewrite like_percent_only, prefix_nil.
  - cbn [any_char] in H. apply orb_false_iff in H as [Hc Hp].
    unfold is_wildcard in Hc. apply orb_false_iff in Hc as [Hpc Hus].
    cbn [append like lower]. rewrite Hpc, Hus.
    destruct s as [|d s]; [reflexivity|].
    cbn [lower String.prefix orb]. rewrite (IH _ Hp).
    destruct (ascii_dec (to_lower c) (to_lower d)) as [E|E].
    + rewrite E, Ascii.eqb_refl. reflexivity.
    + apply Ascii.eqb_neq in E. rewrite E. reflexivity.
Qed.

(** For a pattern without wildcards, [LIKE '%p%'] is containment up to ASCII
    case. *)
Lemma like_literal (p s : string) :
  any_char is_wildcard p = false ->
  like (like_param p) s = has_sub (lower p) (lower s).
Proof.
  intros H. unfold like_param. change ("%" ++ p ++ "%") with (String "%" (p ++ "%")).
  induction s as [|d s IH].
  - rewrite like_percent, (like_literal_prefix _ _ H).
    cbn [lower has_sub]. reflexivity.
  - rewrite like_percent, (like_literal_prefix _ _ H), IH.
    cbn [lower has_sub]. reflexivity.
Qed.

Lemma cell_like_literal (p : string) (v : value) :
  any_char is_wildcard p = false ->
  cell_like (like_param p) v = cell_contains p v.
Proof.
  intros H. unfold cell_like, cell_contains.
  destruct (text_of v); [now apply like_literal | reflexivity].
Qed.

Lemma cell_like_empty (v : value) :
  cell_like (like_param "") v = negb (is_null v).
Proof.
  unfold cell_like. destruct v; cbn [text_of is_null negb];
    try apply like_empty_param; reflexivity.
Qed.

Lemma firstn_In {A : Type} (n : nat) (l : list A) (x : A) :
  In x (firstn n l) -> In x l.
Proof.
  revert l. induction n as [|n IH]; intros [|y l] H; simpl in H; try contradiction.
  destruct H as [->|H]; [now left | right; now apply IH].
Qed.

Lemma filter_ext_all {A : Type} (f g : A -> bool) (l : list A) :
  (forall x, f x = g x) -> filter f l = filter g l.
Proof. intros H. induction l as [|x l IH]; simpl; [reflexivity|]. now rewrite H, IH. Qed.

(** ** The search: claims C2, C3, C4 and C10 *)

(** C2, as the claim words it, fails twice over.  The pattern [_] is a
    wildcard: the search for it returns the row of Alice, whose name holds no
    underscore.  And letters match without regard to case: the search for
    [al] returns the same row, whose name does not hold [al] as written. *)
Lemma search_pattern_not_literal :
  (exists df r,
      DatabaseManager.search Sample.db "people" "name" "_" = Ok df /\
      In r (df_rows df) /\
      cell 1 r = VText "Alice" /\
      ~ substring_of "_" "Alice") /\
  (exists df r,
      DatabaseManager.search Sample.db "people" "name" "al" = Ok df /\
      In r (df_rows df) /\
      cell 1 r = VText "Alice" /\
      ~ substring_of "al" "Alice").
Proof.
  split.
  - eexists. exists [VInt 1; VText "Alice"; VText "Porto"].
    split; [vm_compute; reflexivity|].
    split; [left; reflexivity|]. split; [reflexivity|].
    intros H. apply has_sub_spec in H. vm_compute in H. discriminate.
  - eexists. exists [VInt 1; VText "Alice"; VText "Porto"].
    split; [vm_compute; reflexivity|].
    split; [left; reflexivity|]. split; [reflexivity|].
    intros H. apply has_sub_spec in H. vm_compute in H. discriminate.
Qed.

(** C2, amended.  For a table and a column named by plain identifiers and a
    pattern [p] without [%] and [_]: every row of a result has, under the
    searched column, a value that is not NULL and whose text holds [p] up to
    ASCII case; and the result is the first 500 of all such rows of the table,
    in table order, so none is left out except by the cap. *)
Theorem search_matches_substring
    (db : Store) (t c p : string) (tb : Table) (i : nat) (df : DataFrame) :
  plain_name t = true ->
  plain_name c = true ->
  find_table db t = Some tb ->
  column_index (tbl_columns tb) c = Some i ->
  any_char is_wildcard p = false ->
  DatabaseManager.search db t c p = Ok df ->
  (forall r, In r (df_rows df) ->
     exists s, text_of (cell i r) = Some s /\ substring_of (lower p) (lower s)) /\
  df_rows df = firstn 500 (filter (fun r => cell_contains p (cell i r)) (tbl_rows tb)).
Proof.
  intros Ht Hc Htb Hi Hp H.
  apply (search_column_inv _ _ _ _ _ _ _ Ht Hc Htb Hi) in H. subst df.
  cbn [df_rows].
  rewrite (filter_ext_all _ (fun r => cell_contains p (cell i r)))
    by (intros r; now apply cell_like_literal).
  split; [|reflexivity].
  intros r Hr. apply firstn_In in Hr. apply filter_In in Hr as [_ Hr].
  unfold cell_contains in Hr.
  destruct (text_of (cell i r)) as [s|]; [|discriminate].
  exists s. split; [reflexivity|]. now apply has_sub_spec.
Qed.

Lemma search_matches_substring_witness :
  (forall r, In r [[VInt 1; VText "Alice"; VText "Porto"]] ->
     exists s, text_of (cell 1 r) = Some s /\ substring_of (lower "lic") (lower s)) /\
  [[VInt 1; VText "Alice"; VText "Porto"]] =
  firstn 500 (filter (fun r => cell_contains "lic" (cell 1 r)) (tbl_rows Sample.people)).
Proof.
  apply (search_matches_substring Sample.db "people" "name" "lic" Sample.people 1
           (mkDataFrame ["id"; "name"; "city"] [[VInt 1; VText "Alice"; VText "Porto"]]));
    vm_compute; reflexivity.
Defined.

(** C3, as the claim words it, fails: the column is written into the
    statement as it is, and a column text that opens a comment removes the
    LIMIT clause.  All 501 rows of the table come back. *)
Lemma search_limit_escaped :
  exists df,
    DatabaseManager.search Sample.db_big "big" "1 OR ? /*" "" = Ok df /\
    List.length (df_rows df) = 501%nat.
Proof. eexists. split; vm_compute; reflexivity. Qed.

(** C3, amended.  For a table and a column named by plain identifiers, a
    result has at most 500 rows, whatever the table holds. *)
Theorem search_at_most_500 (db : Store) (t c p : string) (df : DataFrame) :
  plain_name t = true ->
  plain_name c = true ->
  DatabaseManager.search db t c p = Ok df ->
  (List.length (df_rows df) <= 500)%nat.
Proof.
  intros Ht Hc H. rewrite (search_plain _ _ _ _ Ht Hc) in H.
  destruct (find_table db t) as [tb|]; [|destruct (builtin_table t); discriminate].
  destruct (resolve_name (tbl_columns tb) c) as [ox| |]; try discriminate.
  destruct (scan _ 1 (tbl_rows tb)) as [rows|]; [|discriminate].
  replace df with (mkDataFrame (tbl_columns tb) (firstn 500 rows)) by congruence.
  unfold df_rows. apply firstn_le_length.
Qed.

Lemma search_at_most_500_witness :
  (List.length (repeat [VInt 1] 500) <= 500)%nat.
Proof.
  apply (search_at_most_500 Sample.db_big "big" "n" "1"
           (mkDataFrame ["n"] (repeat [VInt 1] 500)));
    vm_compute; reflexivity.
Defined.

(** C4, as the claim words it, fails: a row whose cell under the searched
    column is NULL does not match the empty pattern.  The table has three
    rows, the search on [city] returns two. *)
Lemma search_empty_pattern_skips_null :
  exists df,
    find_table Sample.db "people" = Some Sample.people /\
    In "city" (tbl_columns Sample.people) /\
    List.length (tbl_rows Sample.people) = 3%nat /\
    DatabaseManager.search Sample.db "people" "city" "" = Ok df /\
    List.length (df_rows df) = 2%nat /\
    List.length (df_rows df) <> Nat.min (List.length (tbl_rows Sample.people)) 500.
Proof.
  eexists. repeat split; try (vm_compute; reflexivity).
  - right. right. left. reflexivity.
  - vm_compute. discriminate.
Qed.

(** C4, amended.  For a table and a column named by plain identifiers, the
    search with the empty pattern succeeds and returns [min(n, 500)] rows,
    [n] the number of rows whose cell under the column is not NULL; that is
    [min(row_count, 500)] when the column holds no NULL. *)
Theorem search_empty_pattern
    (db : Store) (t c : string) (tb : Table) (i : nat) :
  plain_name t = true ->
  plain_name c = true ->
  find_table db t = Some tb ->
  column_index (tbl_columns tb) c = Some i ->
  exists df,
    DatabaseManager.search db t c "" = Ok df /\
    List.length (df_rows df) =
      Nat.min (List.length (filter (fun r => negb (is_null (cell i r))) (tbl_rows tb))) 500 /\
    (forallb (fun r => negb (is_null (cell i r))) (tbl_rows tb) = true ->
     List.length (df_rows df) = Nat.min (List.length (tbl_rows tb)) 500).
Proof.
  intros Ht Hc Htb Hi.
  eexists. split.
  - apply (search_column _ _ _ _ _ _ Ht Hc Htb Hi). vm_compute. discriminate.
  - cbn [df_rows].
    rewrite (filter_ext_all _ (fun r => negb (is_null (cell i r))))
      by (intros r; apply cell_like_empty).
    rewrite length_firstn, Nat.min_comm. split; [reflexivity|].
    intros Hall. f_equal. f_equal.
    induction (tbl_rows tb) as [|r rows IH]; [reflexivity|].
    cbn [forallb] in Hall. apply andb_true_iff in Hall as [Hr Hrows].
    cbn [filter]. rewrite Hr. f_equal. now apply IH.
Qed.

Lemma search_empty_pattern_witness :
  exists df,
    DatabaseManager.search Sample.db "people" "name" "" = Ok df /\
    List.length (df_rows df) =
      Nat.min (List.length (filter (fun r => negb (is_null (cell 1 r)))
                              (tbl_rows Sample.people))) 500 /\
    (forallb (fun r => negb (is_null (cell 1 r))) (tbl_rows Sample.people) = true ->
     List.length (df_rows df) = Nat.min (List.length (tbl_rows Sample.people)) 500).
Proof.
  apply (search_empty_pattern Sample.db "people" "name" Sample.people 1);
    vm_compute; reflexivity.
Defined.

(** C10, as the claim words it, fails for a column whose name reads as a
    number: the statement then compares the number, not the cell, and the
    row with NULL under the column is returned. *)
Lemma search_returns_null_cell :
  exists df r,
    find_table Sample.db_sales "sales" = Some Sample.sales /\
    column_index (tbl_columns Sample.sales) "2023" = Some 0%nat /\
    DatabaseManager.search Sample.db_sales "sales" "2023" "" = Ok df /\
    In r (df_rows df) /\
    cell 0 r = VNull.
Proof.
  eexists. exists [VNull; VText "closed"].
  repeat split; try (vm_compute; reflexivity).
  left. reflexivity.
Qed.

(** C10, amended.  For a table and a column named by plain identifiers and
    any pattern, the empty one included, no row of a result has NULL under
    the searched column. *)
Theorem search_never_returns_null
    (db : Store) (t c p : string) (tb : Table) (i : nat) (df : DataFrame) :
  plain_name t = true ->
  plain_name c = true ->
  find_table db t = Some tb ->
  column_index (tbl_columns tb) c = Some i ->
  DatabaseManager.search db t c p = Ok df ->
  forall r, In r (df_rows df) -> cell i r <> VNull.
Proof.
  intros Ht Hc Htb Hi H r Hr.
  apply (search_column_inv _ _ _ _ _ _ _ Ht Hc Htb Hi) in H. subst df.
  cbn [df_rows] in Hr. apply firstn_In in Hr. apply filter_In in Hr as [_ Hr].
  intros E. rewrite E in Hr. discriminate.
Qed.

Lemma search_never_returns_null_witness :
  cell 2 [VInt 3; VText "a_b"; VText "Lagos"] <> VNull.
Proof.
  apply (search_never_returns_null Sample.db "people" "city" "" Sample.people 2
           (mkDataFrame ["id"; "name"; "city"]
              [[VInt 1; VText "Alice"; VText "Porto"]; [VInt 3; VText "a_b"; VText "Lagos"]]));
    try (vm_compute; reflexivity).
  right. left. reflexivity.
Defined.

(** ** The callbacks: claims C1 and C7 *)

(** C1, as the claim words it, fails: no check stands between the column box
    and the statement.  With the text [1] as the column, which is no column
    of the table, the search runs, compares the number 1 with the pattern,
    and replaces the last result. *)
Lemma search_data_unchecked_column :
  ~ In (AppUI.selected_column Sample.ui_typed) (tbl_columns Sample.people) /\
  exists ui',
    AppUI.search_data Sample.ui_typed = AppUI.Returned ui' /\
    AppUI.last_df ui' <> AppUI.last_df Sample.ui_typed.
Proof.
  split.
  - cbn. intros [H|[H|[H|[]]]]; discriminate.
  - eexists. split; [vm_compute; reflexivity|]. cbn. discriminate.
Qed.

(** C1, amended.  When the table is named by a plain identifier and exists,
    and the column text is a plain identifier that names no column of the
    table, letters compared without regard to case, and is none of [rowid],
    [oid], [_rowid_], [true] and [false], the search raises pandas'
    DatabaseError for the engine's "no such column", and the application,
    its last result included, is as before the call. *)
Theorem search_data_unknown_column (ui : AppUI.t) (tb : Table) :
  plain_name (AppUI.selected_table ui) = true ->
  plain_name (AppUI.selected_column ui) = true ->
  find_table (AppUI.db ui) (AppUI.selected_table ui) = Some tb ->
  column_index (tbl_columns tb) (AppUI.selected_column ui) = None ->
  mem (lower (AppUI.selected_column ui)) implicit_names = false ->
  AppUI.search_data ui =
  AppUI.Raised (DatabaseError (NoSuchColumn (AppUI.selected_column ui))) ui.
Proof.
  intros Ht Hc Htb Hi Himp. unfold AppUI.search_data.
  rewrite (search_plain _ _ _ _ Ht Hc), Htb. unfold resolve_name. rewrite Hi.
  unfold implicit_names in Himp. cbn [mem existsb] in Himp.
  repeat (apply orb_false_iff in Himp as [? Himp]).
  cbn [mem existsb].
  repeat match goal with H : String.eqb _ _ = false |- _ => rewrite H; clear H end.
  reflexivity.
Qed.

Lemma search_data_unknown_column_witness :
  AppUI.search_data Sample.ui_unknown =
  AppUI.Raised (DatabaseError (NoSuchColumn "email")) Sample.ui_unknown.
Proof.
  apply (search_data_unknown_column Sample.ui_unknown Sample.people);
    vm_compute; reflexivity.
Defined.

(** C7, as the claim words it, fails: [export_data] raises no error, of the
    kind EmptyResult or of any other.  On the application as it starts, with
    nothing held, the callback returns. *)
Lemma export_empty_returns :
  df_rows (AppUI.last_df (AppUI.init Sample.db)) = [] /\
  snd (AppUI.export_data Sample.writer (AppUI.init Sample.db) "/tmp/out.xlsx") = None.
Proof. split; reflexivity. Qed.

(** C7, amended.  When the held result has no rows, [export_data] does not
    fail: it shows the warning that there is nothing to export and returns.
    It opens no save dialog and makes no call that writes a file, whatever
    the dialog would have answered and whatever the disk would allow; so it
    is neither a silent no-op nor a write of an empty sheet. *)
Theorem export_empty_result
    (to_excel : ExcelWriter) (ui : AppUI.t) (answer : string) :
  df_rows (AppUI.last_df ui) = [] ->
  AppUI.export_data to_excel ui answer =
    ([AppUI.ShowWarning "Aviso" "Nenhum dado para exportar."], None) /\
  forall path df,
    ~ In (AppUI.ToExcel path df) (fst (AppUI.export_data to_excel ui answer)).
Proof.
  intros H.
  assert (E : AppUI.export_data to_excel ui answer =
              ([AppUI.ShowWarning "Aviso" "Nenhum dado para exportar."], None)).
  { unfold AppUI.export_data, df_empty. rewrite H.
    now destruct (df_columns (AppUI.last_df ui)). }
  split; [exact E|]. intros path df. rewrite E.
  intros [Hin|[]]. discriminate.
Qed.

Lemma export_empty_result_witness :
  AppUI.export_data Sample.writer (AppUI.init Sample.db) "/tmp/out.xlsx" =
    ([AppUI.ShowWarning "Aviso" "Nenhum dado para exportar."], None) /\
  forall path df,
    ~ In (AppUI.ToExcel path df)
         (fst (AppUI.export_data Sample.writer (AppUI.init Sample.db) "/tmp/out.xlsx")).
Proof.
  apply (export_empty_result Sample.writer (AppUI.init Sample.db) "/tmp/out.xlsx").
  reflexivity.
Defined.

(** ** The table name: claim C5 *)

Lemma replace_twice (s : string) :
  replace " " "_" (replace "-" "_" s) =
  (fix go (s : string) : string :=
     match s with
     | EmptyString => EmptyString
     | String c r => String (underscore c) (go r)
     end) s.
Proof.
  induction s as [|c s IH]; [reflexivity|].
  cbn [replace]. rewrite IH. f_equal.
  unfold underscore.
  destruct (Ascii.eqb c "-") eqn:E1; [reflexivity|].
  destruct (Ascii.eqb c " "); reflexivity.
Qed.

Lemma derive_get (file_path : string) (n : nat) :
  String.get n (derive_table_name file_path) =
  option_map underscore (String.get n (stem_of file_path)).
Proof.
  unfold derive_table_name. fold (stem_of file_path).
  rewrite replace_twice. revert n.
  induction (stem_of file_path) as [|c s IH]; intros n; [reflexivity|].
  destruct n as [|n]; [reflexivity|]. cbn [String.get]. apply IH.
Qed.

Lemma derive_length (file_path : string) :
  String.length (derive_table_name file_path) = String.length (stem_of file_path).
Proof.
  unfold derive_table_name. fold (stem_of file_path). rewrite replace_twice.
  induction (stem_of file_path) as [|c s IH]; [reflexivity|].
  cbn [String.length]. now rewrite IH.
Qed.

Lemma safe_underscore (c : ascii) :
  safe_char (underscore c) = safe_char c || Ascii.eqb c "-" || Ascii.eqb c " ".
Proof.
  unfold underscore.
  destruct (Ascii.eqb c "-") eqn:E1.
  - cbn [orb]. now rewrite orb_true_r.
  - destruct (Ascii.eqb c " ") eqn:E2; cbn [orb].
    + now rewrite orb_true_r.
    + now rewrite !orb_false_r.
Qed.

(** C5, as the claim words it, fails: only hyphens and spaces are replaced.
    The dot inside the base name of [data.v2.csv] stays, so the name is not
    the one the specification describes and holds a character outside the
    safe set. *)
Lemma derive_table_name_keeps_dot :
  derive_table_name "data.v2.csv" = "data.v2" /\
  sanitize_spec (stem_of "data.v2.csv") = "data_v2" /\
  derive_table_name "data.v2.csv" <> sanitize_spec (stem_of "data.v2.csv") /\
  all_chars safe_char (derive_table_name "data.v2.csv") = false.
Proof. repeat split; try reflexivity. vm_compute. discriminate. Qed.

(** C5, amended.  [derive_table_name] returns the base name without its
    extension, with every hyphen and every space replaced by an underscore
    and every other character kept in place.  So the name is over letters,
    digits and underscore exactly when the base name without extension is
    over letters, digits, underscore, hyphen and space.  And the name of
    [sales report-2024.csv] is [sales_report_2024]. *)
Theorem derive_table_name_replaces (file_path : string) :
  String.length (derive_table_name file_path) = String.length (stem_of file_path) /\
  (forall n, String.get n (derive_table_name file_path) =
             option_map underscore (String.get n (stem_of file_path))) /\
  all_chars safe_char (derive_table_name file_path) =
    all_chars (fun c => safe_char c || Ascii.eqb c "-" || Ascii.eqb c " ")
              (stem_of file_path) /\
  derive_table_name "sales report-2024.csv" = "sales_report_2024".
Proof.
  split; [apply derive_length|]. split; [apply derive_get|].
  split; [|reflexivity].
  unfold derive_table_name. fold (stem_of file_path). rewrite replace_twice.
  induction (stem_of file_path) as [|c s IH]; [reflexivity|].
  cbn [all_chars]. now rewrite IH, safe_underscore.
Qed.

(** ** Loading a file: claims C6 and C8 *)

Lemma import_file_unfold (fs : FileSystem) (db : Store) (p : string) :
  p <> "" ->
  DataImporter.import_file fs db p =
  (df <- read_csv fs p (delimiter_of p) ;;
   conn <- to_sql df (derive_table_name p) db ;;
   Ok (conn, Some (derive_table_name p))).
Proof.
  intros Hp. unfold DataImporter.import_file, delimiter_of,
    DatabaseManager.create_table_from_df.
  apply String.eqb_neq in Hp. rewrite Hp.
  now destruct (endswith p ".csv").
Qed.

Lemma find_table_app (db : Store) (n : string) (tb : Table) :
  find_table db n = None ->
  find_table (db ++ [(n, tb)])%list n = Some tb.
Proof.
  induction db as [|[m t] db IH]; cbn [find_table app]; intros H.
  - unfold same_name. now rewrite String.eqb_refl.
  - destruct (same_name m n); [discriminate|]. now apply IH.
Qed.

Lemma tables_named_app (db : Store) (n : string) (tb : Table) :
  find_table db n = None ->
  tables_named (db ++ [(n, tb)])%list n = 1%nat.
Proof.
  unfold tables_named.
  induction db as [|[m t] db IH]; cbn [find_table app filter fst]; intros H.
  - unfold same_name. now rewrite String.eqb_refl.
  - destruct (same_name m n); [discriminate|]. now apply IH.
Qed.

Lemma to_sql_ok (df : DataFrame) (n : string) (db db' : Store) :
  to_sql df n db = Ok db' ->
  find_table db' n = Some (mkTable (df_columns df) (df_rows df)) /\
  tables_named db' n = 1%nat.
Proof.
  unfold to_sql.
  destruct (negb _); [discriminate|].
  set (db1 := if has_table db n then drop_table db n else db).
  unfold create_table.
  destruct (df_columns df) as [|c cols] eqn:Hcols; [discriminate|].
  destruct (starts_with "sqlite_" (lower n)); [discriminate|].
  destruct (find_table db1 n) eqn:Hfind; [discriminate|].
  destruct (repeated_column (c :: cols)); [discriminate|].
  intros H. injection H as <-.
  split; [now apply find_table_app | now apply tables_named_app].
Qed.

(** What a load that succeeded has done. *)
Lemma import_file_ok (fs : FileSystem) (db db' : Store) (p n : string) :
  DataImporter.import_file fs db p = Ok (db', Some n) ->
  n = derive_table_name p /\
  exists df,
    read_csv fs p (delimiter_of p) = Ok df /\
    find_table db' n = Some (mkTable (df_columns df) (df_rows df)) /\
    tables_named db' n = 1%nat.
Proof.
  intros H.
  assert (Hp : p <> "").
  { intros ->. cbn in H. discriminate. }
  rewrite (import_file_unfold _ _ _ Hp) in H.
  destruct (read_csv fs p (delimiter_of p)) as [df| |] eqn:Hread; try discriminate.
  cbn [bind] in H.
  destruct (to_sql df (derive_table_name p) db) as [conn| |] eqn:Hsql; try discriminate.
  cbn [bind] in H. injection H as <- <-.
  split; [reflexivity|]. exists df. split; [reflexivity|].
  exact (to_sql_ok _ _ _ _ Hsql).
Qed.


(** C6.  When a path is loaded twice in succession and both loads succeed,
    both give the same table name, and the store then holds exactly one
    table of that name, with the columns and the rows read by the second
    load: nothing of the first load is kept. *)
Theorem reload_replaces
    (fs1 fs2 : FileSystem) (db db1 db2 : Store) (p n1 n2 : string) :
  DataImporter.import_file fs1 db p = Ok (db1, Some n1) ->
  DataImporter.import_file fs2 db1 p = Ok (db2, Some n2) ->
  n2 = n1 /\
  exists df2,
    read_csv fs2 p (delimiter_of p) = Ok df2 /\
    find_table db2 n1 = Some (mkTable (df_columns df2) (df_rows df2)) /\
    tables_named db2 n1 = 1%nat.
Proof.
  intros H1 H2.
  apply import_file_ok in H1 as [-> _].
  apply import_file_ok in H2 as [-> H2].
  split; [reflexivity | exact H2].
Qed.

Lemma reload_replaces_witness :
  "people" = "people" /\
  exists df2,
    read_csv Sample.disk_later "/data/people.csv" (delimiter_of "/data/people.csv") = Ok df2 /\
    find_table
      [("people", mkTable ["name"; "city"; "age"] [[VText "Carol"; VText "Faro"; VInt 30]])]
      "people" = Some (mkTable (df_columns df2) (df_rows df2)) /\
    tables_named
      [("people", mkTable ["name"; "city"; "age"] [[VText "Carol"; VText "Faro"; VInt 30]])]
      "people" = 1%nat.
Proof.
  apply (reload_replaces Sample.disk Sample.disk_later []
           [("people", mkTable ["id"; "name"] [[VInt 1; VText "Alice"]; [VInt 2; VText "Bob"]])]
           _ "/data/people.csv" "people" "people");
    vm_compute; reflexivity.
Defined.

Lemma count_zero (x : string) (l : list string) :
  ~ In x l -> count x l = 0%nat.
Proof.
  induction l as [|y l IH]; intros H; [reflexivity|].
  cbn [count]. destruct (String.eqb_spec x y) as [->|Hxy].
  - exfalso. apply H. now left.
  - rewrite IH; [reflexivity|]. intros Hin. apply H. now right.
Qed.

(** A header row of distinct, non-empty labels is taken as it is. *)
Lemma labels_distinct (header before rest : list string) (i : nat) :
  NoDup rest ->
  ~ In "" rest ->
  (forall x, In x rest -> ~ In x before) ->
  labels header before rest i = Some rest.
Proof.
  revert before i. induction rest as [|x rest IH]; intros before i Hnd Hne Hfresh;
    [reflexivity|].
  cbn [labels]. inversion Hnd as [|? ? Hx Hnd']; subst.
  rewrite (count_zero x before) by (apply Hfresh; now left).
  assert (Ex : String.eqb x "" = false).
  { apply String.eqb_neq. intros ->. apply Hne. now left. }
  rewrite Ex. cbn [negb andb Nat.eqb].
  rewrite IH; [reflexivity|assumption| |].
  - intros Hin. apply Hne. now right.
  - intros y Hy [<-|Hin]; [contradiction|].
    apply (Hfresh y); [now right | assumption].
Qed.

Lemma get_columns_plain (db : Store) (n : string) (tb : Table) :
  plain_name n = true ->
  find_table db n = Some tb ->
  DatabaseManager.get_columns db n = Ok (tbl_columns tb).
Proof.
  intros Hn Hfind. unfold DatabaseManager.get_columns, execute.
  rewrite (tokens_of_pragma _ Hn).
  change (parse [TKw "pragma"; TId "table_info"; TLP; TId n; TRP])
    with (Done (STableInfo n)).
  cbn [sql_bind run List.length Nat.eqb negb].
  now rewrite Hfind.
Qed.

(** C8, as the claim words it, fails in two ways.  A file named after a
    reserved word loads, but the table name is written into the PRAGMA as it
    is and the statement is refused.  And a header row with a repeated label
    is not taken as it is: pandas numbers the repetition. *)
Lemma columns_after_load_differ :
  (exists db',
      DataImporter.import_file Sample.disk [] "/data/order.csv" = Ok (db', Some "order") /\
      DatabaseManager.get_columns db' "order" =
        Raise (OperationalError (SyntaxError "order"))) /\
  (exists db',
      DataImporter.import_file Sample.disk [] "/data/pairs.csv" = Ok (db', Some "pairs") /\
      DatabaseManager.get_columns db' "pairs" = Ok ["x"; "x.1"] /\
      ["x"; "x.1"] <> ["x"; "x"]).
Proof.
  split.
  - eexists. split; vm_compute; reflexivity.
  - eexists. split; [vm_compute; reflexivity|].
    split; [vm_compute; reflexivity | discriminate].
Qed.

(** C8, amended.  When a file whose header labels are distinct and not empty
    is loaded with success and the table name derived from its path is a
    plain identifier, [get_columns] on that name returns exactly the header
    labels, in the order of the header. *)
Theorem columns_after_load
    (fs : FileSystem) (db db' : Store) (p n : string) (text : ascii -> CsvText) :
  fs p = Some text ->
  NoDup (csv_header (text (delimiter_of p))) ->
  ~ In "" (csv_header (text (delimiter_of p))) ->
  DataImporter.import_file fs db p = Ok (db', Some n) ->
  plain_name n = true ->
  DatabaseManager.get_columns db' n = Ok (csv_header (text (delimiter_of p))).
Proof.
  intros Htext Hnd Hne H Hn.
  apply import_file_ok in H as (_ & df & Hread & Hfind & _).
  rewrite (get_columns_plain _ _ _ Hn Hfind). cbn [tbl_columns].
  unfold read_csv in Hread. rewrite Htext in Hread.
  destruct (csv_header (text (delimiter_of p))) as [|h hs] eqn:Hh; [discriminate|].
  rewrite (labels_distinct _ [] (h :: hs) 0 Hnd Hne) in Hread
    by (intros x _ []).
  injection Hread as <-. reflexivity.
Qed.

Lemma columns_after_load_witness :
  DatabaseManager.get_columns
    [("people", mkTable ["id"; "name"] [[VInt 1; VText "Alice"]; [VInt 2; VText "Bob"]])]
    "people" = Ok ["id"; "name"].
Proof.
  apply (columns_after_load Sample.disk [] _ "/data/people.csv" "people"
           (Sample.file (mkCsv ["id"; "name"] [[VInt 1; VText "Alice"]; [VInt 2; VText "Bob"]])
                        (mkCsv ["id,name"] [[VText "1,Alice"]; [VText "2,Bob"]]))).
  - reflexivity.
  - repeat constructor; cbn; intuition discriminate.
  - cbn. intuition discriminate.
  - vm_compute. reflexivity.
  - vm_compute. reflexivity.
Defined.

(** * Further properties of the code *)

(** ** Words and reserved words *)

Lemma lex_word (n rest : string) :
  word_shaped n = true ->
  starts is_ident_char rest = false ->
  lex LStart (n ++ rest) = word_token n :: lex LStart rest.
Proof.
  intros Hn Hrest. destruct n as [|c r]; [discriminate|].
  unfold word_shaped in Hn. apply andb_true_iff in Hn as [Hc Hr].
  change (String c r ++ rest) with (String c (r ++ rest)).
  rewrite lex_cons. unfold step, start.
  rewrite (ident_start_not_space _ Hc), Hc. simpl app.
  rewrite lex_word_run by assumption.
  now rewrite lex_word_end by assumption.
Qed.

Lemma reserved_is_keyword (w : string) :
  mem w reserved = true -> mem w keywords = true.
Proof.
  unfold mem at 1, reserved. cbn [existsb]. intros H.
  repeat (apply orb_true_iff in H as [H|H];
          [apply String.eqb_eq in H; subst w; vm_compute; reflexivity|]).
  discriminate.
Qed.

Lemma reserved_token (n : string) :
  mem (lower n) reserved = true -> word_token n = TKw (lower n).
Proof.
  intros H. unfold word_token. now rewrite (reserved_is_keyword _ H).
Qed.

Lemma search_reserved (db : Store) (t c v : string) :
  word_shaped t = true ->
  mem (lower t) reserved = true ->
  DatabaseManager.search db t c v = Raise (DatabaseError (SyntaxError (lower t))).
Proof.
  intros Hw Hr.
  unfold DatabaseManager.search, read_sql_query, execute, tokenize,
    DatabaseManager.search_query.
  erewrite lex_open_app by (vm_compute; reflexivity).
  rewrite lex_word; [|assumption|reflexivity].
  erewrite lex_open_app by (vm_compute; reflexivity).
  rewrite (reserved_token _ Hr).
  cbn [app parse is_kw]. change (String.eqb "select" "select") with true.
  change (String.eqb "from" "from") with true.
  cbn [andb parse_name]. rewrite Hr. reflexivity.
Qed.

Lemma get_columns_reserved (db : Store) (t : string) :
  word_shaped t = true ->
  mem (lower t) reserved = true ->
  DatabaseManager.get_columns db t = Raise (OperationalError (SyntaxError (lower t))).
Proof.
  intros Hw Hr. unfold DatabaseManager.get_columns, execute, tokenize.
  erewrite lex_open_app by (vm_compute; reflexivity).
  rewrite lex_word; [|assumption|reflexivity].
  rewrite (reserved_token _ Hr).
  change (lex LStart ")") with [TRP].
  cbn [app parse is_kw]. change (String.eqb "pragma" "pragma") with true.
  change (String.eqb (lower "table_info") "table_info") with true.
  cbn [andb parse_name sql_bind]. rewrite Hr. reflexivity.
Qed.

(** X1.  A table whose name is one of the reserved words SELECT, FROM,
    WHERE, GROUP, ORDER, HAVING, LIMIT, UNION, TABLE and INDEX, in any
    letter case, can be neither searched nor listed: whatever the store, the
    column and the pattern, [search] raises pandas' DatabaseError and
    [get_columns] raises sqlite3's OperationalError, both for a syntax error
    at the name. *)
Theorem reserved_table_name_unusable (db : Store) (t c v : string) :
  word_shaped t = true ->
  mem (lower t) reserved = true ->
  DatabaseManager.search db t c v = Raise (DatabaseError (SyntaxError (lower t))) /\
  DatabaseManager.get_columns db t = Raise (OperationalError (SyntaxError (lower t))).
Proof.
  intros Hw Hr. split; [now apply search_reserved | now apply get_columns_reserved].
Qed.

Lemma reserved_table_name_unusable_witness :
  DatabaseManager.search Sample2.db_order "Order" "item" "pen" =
    Raise (DatabaseError (SyntaxError (lower "Order"))) /\
  DatabaseManager.get_columns Sample2.db_order "Order" =
    Raise (OperationalError (SyntaxError (lower "Order"))).
Proof.
  apply (reserved_table_name_unusable Sample2.db_order "Order" "item" "pen");
    vm_compute; reflexivity.
Defined.

(** ** Tables that are missing *)

(** X2.  For a plain table name that no table of the store answers to and
    that the engine does not provide itself, [get_columns] does not fail: it
    returns the empty list.  [search] on it, with a plain column name,
    raises DatabaseError for "no such table", and [search_data] then leaves
    the application as it was. *)
Theorem missing_table (ui : AppUI.t) :
  plain_name (AppUI.selected_table ui) = true ->
  plain_name (AppUI.selected_column ui) = true ->
  find_table (AppUI.db ui) (AppUI.selected_table ui) = None ->
  builtin_table (AppUI.selected_table ui) = false ->
  DatabaseManager.get_columns (AppUI.db ui) (AppUI.selected_table ui) = Ok [] /\
  AppUI.search_data ui =
    AppUI.Raised (DatabaseError (NoSuchTable (AppUI.selected_table ui))) ui.
Proof.
  intros Ht Hc Hfind Hb. split.
  - unfold DatabaseManager.get_columns, execute.
    rewrite (tokens_of_pragma _ Ht).
    change (parse [TKw "pragma"; TId "table_info"; TLP;
                   TId (AppUI.selected_table ui); TRP])
      with (Done (STableInfo (AppUI.selected_table ui))).
    cbn [sql_bind run List.length Nat.eqb negb]. now rewrite Hfind, Hb.
  - unfold AppUI.search_data.
    now rewrite (search_plain _ _ _ _ Ht Hc), Hfind, Hb.
Qed.

Lemma missing_table_witness :
  DatabaseManager.get_columns Sample.db "cities" = Ok [] /\
  AppUI.search_data (AppUI.mk Sample.db Sample.earlier "cities" "name" "x" []) =
    AppUI.Raised (DatabaseError (NoSuchTable "cities"))
      (AppUI.mk Sample.db Sample.earlier "cities" "name" "x" []).
Proof.
  apply (missing_table (AppUI.mk Sample.db Sample.earlier "cities" "name" "x" []));
    vm_compute; reflexivity.
Defined.

(** ** What a search returns *)

Lemma firstn_incl {A : Type} (n : nat) (l : list A) : incl (firstn n l) l.
Proof. intros x. apply firstn_In. Qed.

(** X3.  For a table and a column text that are plain identifiers, a result
    of [search] has the columns of the table, in the order of the table, and
    each of its rows is a row of the table. *)
Theorem search_result_shape
    (db : Store) (t c v : string) (tb : Table) (df : DataFrame) :
  plain_name t = true ->
  plain_name c = true ->
  find_table db t = Some tb ->
  DatabaseManager.search db t c v = Ok df ->
  df_columns df = tbl_columns tb /\ incl (df_rows df) (tbl_rows tb).
Proof.
  intros Ht Hc Htb H. rewrite (search_plain _ _ _ _ Ht Hc), Htb in H.
  destruct (resolve_name (tbl_columns tb) c) as [ox| |]; try discriminate.
  destruct (scan _ 1 (tbl_rows tb)) as [rows|] eqn:Hscan; [|discriminate].
  replace df with (mkDataFrame (tbl_columns tb) (firstn 500 rows)) by congruence.
  split; [reflexivity|]. unfold df_rows.
  eapply incl_tran; [apply firstn_incl | exact (scan_sublist _ _ _ _ Hscan)].
Qed.

Lemma search_result_shape_witness :
  df_columns (mkDataFrame ["id"; "name"; "city"] [[VInt 2; VText "Bob"; VNull]]) =
    tbl_columns Sample.people /\
  incl (df_rows (mkDataFrame ["id"; "name"; "city"] [[VInt 2; VText "Bob"; VNull]]))
       (tbl_rows Sample.people).
Proof.
  apply (search_result_shape Sample.db "people" "rowid" "2" Sample.people);
    vm_compute; reflexivity.
Defined.

(** ** The store under loads *)

Lemma same_name_iff (a b : string) : same_name a b = true <-> lower a = lower b.
Proof. unfold same_name. apply String.eqb_eq. Qed.

Lemma same_name_sym (a b : string) : same_name a b = same_name b a.
Proof. unfold same_name. apply String.eqb_sym. Qed.

Lemma find_table_none (db : Store) (m : string) :
  find_table db m = None <-> ~ In (lower m) (folded (map fst db)).
Proof.
  induction db as [|[n t] db IH]; cbn [find_table folded map fst In].
  - split; [intros _ [] | reflexivity].
  - destruct (same_name n m) eqn:E.
    + split; [discriminate|]. intros H. exfalso. apply H. left.
      now apply same_name_iff.
    + rewrite IH. unfold folded. split.
      * intros H [Hn|Hin]; [|contradiction].
        apply same_name_iff in Hn. congruence.
      * intros H Hin. apply H. now right.
Qed.

Lemma find_table_drop_other (db : Store) (n m : string) :
  same_name m n = false ->
  find_table (drop_table db n) m = find_table db m.
Proof.
  intros Hmn. unfold drop_table.
  induction db as [|[k t] db IH]; [reflexivity|].
  cbn [filter fst find_table].
  destruct (same_name k n) eqn:Hkn; cbn [negb find_table].
  - rewrite IH. destruct (same_name k m) eqn:Hkm; [|reflexivity].
    exfalso. apply same_name_iff in Hkn, Hkm.
    assert (same_name m n = true) by (apply same_name_iff; congruence).
    congruence.
  - rewrite IH. reflexivity.
Qed.

Lemma find_table_app_other (db : Store) (n m : string) (tb : Table) :
  same_name m n = false ->
  find_table (db ++ [(n, tb)])%list m = find_table db m.
Proof.
  intros Hmn. induction db as [|[k t] db IH]; cbn [app find_table].
  - now rewrite same_name_sym, Hmn.
  - now rewrite IH.
Qed.

(** What a [to_sql] that succeeded has done, step by step. *)
Lemma to_sql_inv (df : DataFrame) (n : string) (db db' : Store) :
  to_sql df n db = Ok db' ->
  let db1 := if has_table db n then drop_table db n else db in
  db' = (db1 ++ [(n, mkTable (df_columns df) (df_rows df))])%list /\
  find_table db1 n = None /\
  df_columns df <> [] /\
  forallb valid_sqlite_name (df_columns df) = true /\
  repeated_column (df_columns df) = None.
Proof.
  unfold to_sql.
  destruct (valid_sqlite_name n && forallb valid_sqlite_name (df_columns df)) eqn:Hv;
    cbn [negb]; [|discriminate].
  apply andb_true_iff in Hv as [_ Hv].
  set (db1 := if has_table db n then drop_table db n else db).
  unfold create_table.
  destruct (df_columns df) as [|c cols] eqn:Hcols; [discriminate|].
  destruct (starts_with "sqlite_" (lower n)); [discriminate|].
  destruct (find_table db1 n) eqn:Hfind; [discriminate|].
  destruct (repeated_column (c :: cols)) eqn:Hrep; [discriminate|].
  intros H. cbn zeta. repeat split; try congruence.
Qed.

Lemma import_file_inv (fs : FileSystem) (db db' : Store) (p n : string) :
  DataImporter.import_file fs db p = Ok (db', Some n) ->
  exists df,
    read_csv fs p (delimiter_of p) = Ok df /\
    to_sql df n db = Ok db' /\
    n = derive_table_name p.
Proof.
  intros H.
  assert (Hp : p <> "") by (intros ->; cbn in H; discriminate).
  rewrite (import_file_unfold _ _ _ Hp) in H.
  destruct (read_csv fs p (delimiter_of p)) as [df| |] eqn:Hread; try discriminate.
  cbn [bind] in H.
  destruct (to_sql df (derive_table_name p) db) as [conn| |] eqn:Hsql; try discriminate.
  cbn [bind] in H. injection H as <- <-. now exists df.
Qed.

(** X4.  A load that succeeds touches one table only: every table whose
    name differs from the derived name, letter case aside, is found after
    the load exactly as before it. *)
Theorem import_keeps_other_tables
    (fs : FileSystem) (db db' : Store) (p n m : string) :
  DataImporter.import_file fs db p = Ok (db', Some n) ->
  same_name m n = false ->
  find_table db' m = find_table db m.
Proof.
  intros H Hmn. apply import_file_inv in H as (df & _ & Hsql & _).
  apply to_sql_inv in Hsql as (-> & _).
  rewrite (find_table_app_other _ _ _ _ Hmn).
  destruct (has_table db n); [now apply find_table_drop_other | reflexivity].
Qed.

Lemma import_keeps_other_tables_witness :
  find_table
    (Sample.db ++ [("order", mkTable ["id"; "item"] [[VInt 1; VText "pen"]])])%list
    "people" = find_table Sample.db "people".
Proof.
  apply (import_keeps_other_tables Sample.disk Sample.db _ "/data/order.csv" "order" "people");
    vm_compute; reflexivity.
Defined.

Lemma NoDup_map_filter {A B : Type} (f : A -> B) (g : A -> bool) (l : list A) :
  NoDup (map f l) -> NoDup (map f (filter g l)).
Proof.
  induction l as [|x l IH]; cbn [map filter]; intros H; [constructor|].
  inversion H as [|? ? Hx Hl]; subst.
  destruct (g x); cbn [map]; [|now apply IH].
  constructor; [|now apply IH].
  intros Hin. apply Hx. apply in_map_iff in Hin as (y & Hy & Hin).
  apply filter_In in Hin as [Hin _]. apply in_map_iff. now exists y.
Qed.

Lemma repeated_column_none (cols : list string) :
  repeated_column cols = None -> NoDup (folded cols).
Proof.
  induction cols as [|c cols IH]; cbn [repeated_column folded map]; intros H;
    [constructor|].
  destruct (existsb (same_name c) cols) eqn:E; [discriminate|].
  constructor; [|now apply IH].
  intros Hin. apply in_map_iff in Hin as (d & Hd & Hin).
  assert (existsb (same_name c) cols = true); [|congruence].
  apply existsb_exists. exists d. split; [assumption|].
  now apply same_name_iff.
Qed.

Lemma valid_names_not_empty (cols : list string) :
  forallb valid_sqlite_name cols = true -> ~ In "" cols.
Proof.
  intros H Hin. rewrite forallb_forall in H. specialize (H _ Hin). discriminate.
Qed.

Lemma store_ok_nil : store_ok [].
Proof. split; constructor. Qed.

(** X5.  Loads keep the store well formed.  If no two tables of the store
    are equal in name up to letter case, and every table has at least one
    column, no empty column name and no two columns equal up to case, then
    the same holds after a load through [import_file] that returns; the
    empty store is of this kind. *)
Theorem import_keeps_store_ok
    (fs : FileSystem) (db db' : Store) (p : string) (name : option string) :
  store_ok db ->
  DataImporter.import_file fs db p = Ok (db', name) ->
  store_ok db' /\ store_ok [].
Proof.
  intros [Hnames Htables] H. split; [|apply store_ok_nil].
  destruct name as [n|].
  - apply import_file_inv in H as (df & _ & Hsql & _).
    apply to_sql_inv in Hsql as (-> & Hfind & Hcols & Hvalid & Hrep).
    set (db1 := if has_table db n then drop_table db n else db) in *.
    assert (Hnames1 : NoDup (folded (map fst db1))).
    { subst db1. destruct (has_table db n); [|assumption].
      unfold drop_table, folded. rewrite map_map.
      apply NoDup_map_filter. now rewrite <- map_map. }
    assert (Htables1 : Forall (fun e => table_ok (snd e)) db1).
    { subst db1. destruct (has_table db n); [|assumption].
      unfold drop_table. rewrite Forall_forall in *. intros e He.
      apply filter_In in He as [He _]. now apply Htables. }
    split.
    + unfold folded in *. rewrite !map_app. cbn [map fst].
      apply NoDup_app; [assumption | repeat constructor; intros [] | ].
      intros x Hx [<-|[]]. revert Hx. now apply find_table_none.
    + apply Forall_app. split; [assumption|].
      constructor; [|constructor]. cbn [snd]. repeat split; cbn [tbl_columns].
      * assumption.
      * now apply valid_names_not_empty.
      * now apply repeated_column_none.
  - unfold DataImporter.import_file in H.
    destruct (String.eqb p ""); [injection H as <-; now split|].
    destruct (if endswith p ".csv" then read_csv fs p "," else read_csv fs p ";")
      as [df| |]; try discriminate.
    cbn [bind] in H.
    destruct (DatabaseManager.create_table_from_df db (derive_table_name p) df);
      discriminate.
Qed.

Lemma import_keeps_store_ok_witness :
  store_ok (Sample.db ++ [("order", mkTable ["id"; "item"] [[VInt 1; VText "pen"]])])%list /\
  store_ok [].
Proof.
  apply (import_keeps_store_ok Sample.disk Sample.db _ "/data/order.csv" (Some "order")).
  - split.
    + repeat constructor; cbn; intuition discriminate.
    + repeat constructor; cbn; try discriminate; intuition discriminate.
  - vm_compute. reflexivity.
Defined.

(** ** Paths and table names *)

Lemma rfind_from_none (k : Z) (c : ascii) (s : string) :
  any_char (Ascii.eqb c) s = false -> rfind_from k c s = -1.
Proof.
  revert k. induction s as [|d s IH]; intros k H; [reflexivity|].
  cbn [any_char] in H. apply orb_false_iff in H as [Hd Hs].
  cbn [rfind_from]. rewrite (IH _ Hs). cbn.
  rewrite Ascii.eqb_sym in Hd. now rewrite Hd.
Qed.

Lemma rfind_from_last (k : Z) (c : ascii) (a b : string) :
  0 <= k ->
  any_char (Ascii.eqb c) b = false ->
  rfind_from k c (a ++ String c b) = k + len a.
Proof.
  revert k. induction a as [|d a IH]; intros k Hk Hb.
  - cbn [append rfind_from]. rewrite (rfind_from_none _ _ _ Hb). cbn.
    rewrite Ascii.eqb_refl. unfold len. cbn. lia.
  - cbn [append rfind_from]. rewrite (IH (k + 1)) by (assumption || lia).
    unfold len. cbn [String.length].
    destruct (0 <=? k + 1 + Z.of_nat (String.length a)) eqn:E; [lia|].
    apply Z.leb_gt in E. lia.
Qed.

Lemma last_occurrence (c : ascii) (s : string) :
  any_char (Ascii.eqb c) s = false \/
  exists a b, s = a ++ String c b /\ any_char (Ascii.eqb c) b = false.
Proof.
  induction s as [|d s IH]; [now left|].
  destruct IH as [Hs|(a & b & -> & Hb)].
  - cbn [any_char]. destruct (Ascii.eqb c d) eqn:E.
    + right. apply Ascii.eqb_eq in E. subst d. now exists "", s.
    + left. now rewrite Hs.
  - right. now exists (String d a), b.
Qed.

Lemma substring_all (s : string) : String.substring 0 (String.length s) s = s.
Proof. induction s as [|c s IH]; [reflexivity|]. cbn. now rewrite IH. Qed.

Lemma substring_skip (a b : string) (m : nat) :
  String.substring (String.length a) m (a ++ b) = String.substring 0 m b.
Proof. induction a as [|c a IH]; [reflexivity|]. cbn. apply IH. Qed.

Lemma length_append (a b : string) :
  String.length (a ++ b) = (String.length a + String.length b)%nat.
Proof. induction a as [|c a IH]; [reflexivity|]. cbn. now rewrite IH. Qed.

Lemma basename_plain (p : string) :
  any_char (Ascii.eqb "/") p = false -> OsPath.basename p = p.
Proof.
  intros H. unfold OsPath.basename, rfind, slice_from.
  rewrite (rfind_from_none _ _ _ H). cbn [Z.add Z.to_nat].
  rewrite Nat.sub_0_r. apply substring_all.
Qed.

Lemma basename_app (dir base : string) :
  any_char (Ascii.eqb "/") base = false ->
  OsPath.basename (dir ++ String "/" base) = base.
Proof.
  intros H. unfold OsPath.basename, rfind, slice_from.
  rewrite (rfind_from_last _ _ _ _ (Z.le_refl 0) H). unfold len.
  replace (Z.to_nat (0 + Z.of_nat (String.length dir) + 1))
    with (String.length (dir ++ "/")) by (rewrite length_append; cbn; lia).
  replace (dir ++ String "/" base) with ((dir ++ "/") ++ base)
    by (now rewrite append_assoc).
  rewrite substring_skip, length_append.
  replace (String.length (dir ++ "/") + String.length base - String.length (dir ++ "/"))%nat
    with (String.length base) by lia.
  apply substring_all.
Qed.

Lemma basename_no_sep (p : string) :
  any_char (Ascii.eqb "/") (OsPath.basename p) = false.
Proof.
  destruct (last_occurrence "/" p) as [H|(a & b & -> & Hb)].
  - now rewrite basename_plain.
  - now rewrite basename_app.
Qed.

Lemma any_char_substring (f : ascii -> bool) (s : string) (n m : nat) :
  any_char f s = false -> any_char f (String.substring n m s) = false.
Proof.
  revert n m. induction s as [|c s IH]; intros n m H.
  - destruct n, m; reflexivity.
  - cbn [any_char] in H. apply orb_false_iff in H as [Hc Hs].
    destruct n as [|n]; cbn [String.substring].
    + destruct m as [|m]; [reflexivity|]. cbn [any_char]. rewrite Hc. now apply IH.
    + now apply IH.
Qed.

Lemma stem_no_sep (p : string) :
  any_char (Ascii.eqb "/") (stem_of p) = false.
Proof.
  unfold stem_of, OsPath.splitext.
  pose proof (basename_no_sep p) as H.
  destruct (_ <? _); [|exact H].
  destruct (all_chars _ _); [exact H|].
  cbn [fst]. unfold slice. now apply any_char_substring.
Qed.

(** X6.  The table name derived from a path never holds a slash, a hyphen
    or a space. *)
Theorem derive_table_name_clean (file_path : string) :
  any_char never_in_name (derive_table_name file_path) = false.
Proof.
  unfold derive_table_name. fold (stem_of file_path).
  rewrite replace_twice. pose proof (stem_no_sep file_path) as H.
  induction (stem_of file_path) as [|c s IH]; [reflexivity|].
  cbn [any_char] in H. apply orb_false_iff in H as [Hc Hs].
  cbn [any_char]. rewrite (IH Hs), orb_false_r.
  unfold never_in_name, underscore.
  rewrite Ascii.eqb_sym in Hc.
  destruct (Ascii.eqb c "-") eqn:E1; [reflexivity|].
  destruct (Ascii.eqb c " ") eqn:E2; [reflexivity|].
  cbn [orb]. now rewrite Hc, E1, E2.
Qed.

(** X7.  The table name does not depend on the directory: a file name
    without a slash gives the same table name under every directory. *)
Theorem derive_table_name_ignores_directory (dir base : string) :
  any_char (Ascii.eqb "/") base = false ->
  derive_table_name (dir ++ "/" ++ base) = derive_table_name base.
Proof.
  intros H. unfold derive_table_name.
  change (dir ++ "/" ++ base) with (dir ++ String "/" base).
  now rewrite (basename_app _ _ H), (basename_plain _ H).
Qed.

Lemma derive_table_name_ignores_directory_witness :
  derive_table_name ("/home/ana/2024" ++ "/" ++ "people.csv") =
  derive_table_name "people.csv".
Proof.
  apply (derive_table_name_ignores_directory "/home/ana/2024" "people.csv").
  reflexivity.
Defined.

(** X8.  Two paths with the same derived table name share one table: when
    both are loaded in succession with success, the store then holds exactly
    one table of that name, with the columns and rows read from the second
    path. *)
Theorem same_name_files_share_table
    (fs1 fs2 : FileSystem) (db db1 db2 : Store) (p q n1 n2 : string) :
  derive_table_name p = derive_table_name q ->
  DataImporter.import_file fs1 db p = Ok (db1, Some n1) ->
  DataImporter.import_file fs2 db1 q = Ok (db2, Some n2) ->
  n2 = n1 /\
  exists df2,
    read_csv fs2 q (delimiter_of q) = Ok df2 /\
    find_table db2 n1 = Some (mkTable (df_columns df2) (df_rows df2)) /\
    tables_named db2 n1 = 1%nat.
Proof.
  intros Hpq H1 H2.
  apply import_file_ok in H1 as [-> _].
  apply import_file_ok in H2 as [-> H2].
  rewrite Hpq. split; [reflexivity | exact H2].
Qed.

Lemma same_name_files_share_table_witness :
  "people" = "people" /\
  exists df2,
    read_csv Sample2.disk "/backup/people.txt" (delimiter_of "/backup/people.txt") = Ok df2 /\
    find_table [("people", mkTable ["name"; "age"] [[VText "Dora"; VInt 41]])] "people" =
      Some (mkTable (df_columns df2) (df_rows df2)) /\
    tables_named [("people", mkTable ["name"; "age"] [[VText "Dora"; VInt 41]])] "people" = 1%nat.
Proof.
  apply (same_name_files_share_table Sample2.disk Sample2.disk [] Sample2.db_loaded _
           "/data/people.csv" "/backup/people.txt" "people" "people");
    vm_compute; reflexivity.
Defined.

Lemma labels_valid (header before rest cols : list string) (i : nat) :
  labels header before rest i = Some cols ->
  forallb valid_sqlite_name cols = true /\ List.length cols = List.length rest.
Proof.
  revert before i cols. induction rest as [|x rest IH]; intros before i cols H.
  - injection H as <-. now split.
  - cbn [labels] in H.
    destruct (negb _ && mem _ header); [discriminate|].
    destruct (labels header (x :: before) rest (S i)) as [more|] eqn:E; [|discriminate].
    injection H as <-. destruct (IH _ _ _ E) as [Hv Hl].
    cbn [forallb List.length]. rewrite Hv, Hl. split; [|reflexivity].
    rewrite andb_true_r. unfold valid_sqlite_name.
    destruct (String.eqb x "") eqn:Ex; [reflexivity|].
    destruct x as [|c x]; [discriminate|].
    now destruct (Nat.eqb (count (String c x) before) 0).
Qed.

Lemma read_csv_frame (fs : FileSystem) (p : string) (d : ascii) (df : DataFrame) :
  read_csv fs p d = Ok df ->
  df_columns df <> [] /\ forallb valid_sqlite_name (df_columns df) = true.
Proof.
  unfold read_csv. destruct (fs p) as [text|]; [|discriminate].
  destruct (csv_header (text d)) as [|h hs] eqn:Hh; [discriminate|].
  destruct (labels (h :: hs) [] (h :: hs) 0) as [cols|] eqn:E; [|discriminate].
  intros H. injection H as <-. cbn [df_columns].
  destruct (labels_valid _ _ _ _ _ E) as [Hv Hl]. split; [|assumption].
  intros ->. discriminate.
Qed.

(** X9.  A load is refused when the store holds a table whose name equals
    the derived name up to letter case but not exactly: the existence test
    compares exactly and drops nothing, the creation then meets the other
    table, and [import_file] raises. *)
Theorem load_refused_on_case_clash
    (fs : FileSystem) (db : Store) (p : string) (df : DataFrame) (tb : Table) :
  derive_table_name p <> "" ->
  read_csv fs p (delimiter_of p) = Ok df ->
  find_table db (derive_table_name p) = Some tb ->
  has_table db (derive_table_name p) = false ->
  starts_with "sqlite_" (lower (derive_table_name p)) = false ->
  exists e, DataImporter.import_file fs db p = Raise e.
Proof.
  intros Hn Hread Hfind Hhas Hres.
  assert (Hp : p <> "") by (intros ->; apply Hn; reflexivity).
  rewrite (import_file_unfold _ _ _ Hp), Hread. cbn [bind].
  destruct (read_csv_frame _ _ _ _ Hread) as [Hcols Hvalid].
  unfold to_sql. rewrite Hvalid, Hhas.
  apply String.eqb_neq in Hn. unfold valid_sqlite_name at 1. rewrite Hn.
  cbn [negb andb]. unfold create_table. rewrite Hres, Hfind.
  destruct (df_columns df); [contradiction|].
  eexists. reflexivity.
Qed.

Lemma load_refused_on_case_clash_witness :
  exists e, DataImporter.import_file Sample2.disk Sample2.db_loaded "/data/People.csv" = Raise e.
Proof.
  apply (load_refused_on_case_clash Sample2.disk Sample2.db_loaded "/data/People.csv"
           (mkDataFrame ["id"] [[VInt 9]])
           (mkTable ["id"; "name"] [[VInt 1; VText "Alice"]; [VInt 2; VText "Bob"]]));
    vm_compute; (reflexivity || discriminate).
Defined.

(** ** Export *)

(** X10.  [export_data] calls [to_excel] in one case only: the held result
    is not empty and the save dialog returned a path.  The call then goes to
    that path with the held result; no other file is ever written.  The
    success dialog is shown exactly when that call returns, and an exception
    of the call is the exception the callback ends with. *)
Theorem export_writes_only_held_result
    (to_excel : ExcelWriter) (ui : AppUI.t) (answer path : string) (df : DataFrame) :
  (In (AppUI.ToExcel path df) (fst (AppUI.export_data to_excel ui answer)) <->
   df_empty (AppUI.last_df ui) = false /\ answer <> "" /\
   path = answer /\ df = AppUI.last_df ui) /\
  (In (AppUI.ShowInfo "Sucesso" "Exportado com sucesso!")
      (fst (AppUI.export_data to_excel ui answer)) <->
   df_empty (AppUI.last_df ui) = false /\ answer <> "" /\
   to_excel answer (AppUI.last_df ui) = None) /\
  (forall e, snd (AppUI.export_data to_excel ui answer) = Some e <->
   df_empty (AppUI.last_df ui) = false /\ answer <> "" /\
   to_excel answer (AppUI.last_df ui) = Some e).
Proof.
  unfold AppUI.export_data.
  destruct (df_empty (AppUI.last_df ui)).
  - cbn [fst snd]. split; [|split; [|intros e]]; split;
      solve [ intros [Hin|[]]; discriminate
            | discriminate
            | intros [Hf _]; discriminate ].
  - destruct (String.eqb_spec answer "") as [->|Hne].
    + cbn [fst snd]. split; [|split; [|intros e]]; split;
        solve [ intros [Hin|[]]; discriminate
              | discriminate
              | intros (_ & Hf & _); contradiction ].
    + destruct (to_excel answer (AppUI.last_df ui)) as [e0|] eqn:Hw; cbn [fst snd].
      * split; [|split; [|intros e]]; split.
        -- intros [Hin|[Hin|[]]]; try discriminate.
           injection Hin as <- <-. now repeat split.
        -- intros (_ & _ & -> & ->). right. now left.
        -- intros [Hin|[Hin|[]]]; discriminate.
        -- intros (_ & _ & Hf). discriminate.
        -- intros Hf. now repeat split.
        -- intros (_ & _ & Hf). exact Hf.
      * split; [|split; [|intros e]]; split.
        -- intros [Hin|[Hin|[Hin|[]]]]; try discriminate.
           injection Hin as <- <-. now repeat split.
        -- intros (_ & _ & -> & ->). right. now left.
        -- intros _. now repeat split.
        -- intros _. right. right. now left.
        -- discriminate.
        -- intros (_ & _ & Hf). discriminate.
Qed.

(** X11.  When [search_data] returns with a result that is not empty, the
    rows on display are the rows of the held result, the held result is what
    [search] returned for the two selections and the search text, and an
    export to a chosen path calls [to_excel] on that path with exactly that
    result; it then shows the success dialog when the call returns, and ends
    with the exception of the call, without the dialog, when it raises. *)
Theorem export_writes_search_result
    (to_excel : ExcelWriter) (ui ui' : AppUI.t) (answer : string) :
  AppUI.search_data ui = AppUI.Returned ui' ->
  df_empty (AppUI.last_df ui') = false ->
  answer <> "" ->
  DatabaseManager.search (AppUI.db ui) (AppUI.selected_table ui)
    (AppUI.selected_column ui) (AppUI.search_entry ui) = Ok (AppUI.last_df ui') /\
  AppUI.tree ui' = df_rows (AppUI.last_df ui') /\
  AppUI.export_data to_excel ui' answer =
    match to_excel answer (AppUI.last_df ui') with
    | None =>
        ([AppUI.AskSaveAs; AppUI.ToExcel answer (AppUI.last_df ui');
          AppUI.ShowInfo "Sucesso" "Exportado com sucesso!"], None)
    | Some e => ([AppUI.AskSaveAs; AppUI.ToExcel answer (AppUI.last_df ui')], Some e)
    end.
Proof.
  unfold AppUI.search_data. intros H Hne Hans.
  destruct (DatabaseManager.search _ _ _ _) as [df| |]; try discriminate.
  injection H as <-. cbn [AppUI.last_df AppUI.tree] in *.
  repeat split. unfold AppUI.export_data. cbn [AppUI.last_df].
  rewrite Hne. apply String.eqb_neq in Hans. now rewrite Hans.
Qed.

Lemma export_writes_search_result_witness :
  DatabaseManager.search Sample.db "people" "name" "bob" =
    Ok (mkDataFrame ["id"; "name"; "city"] [[VInt 2; VText "Bob"; VNull]]) /\
  [[VInt 2; VText "Bob"; VNull]] =
    df_rows (mkDataFrame ["id"; "name"; "city"] [[VInt 2; VText "Bob"; VNull]]) /\
  AppUI.export_data Sample.writer
    (AppUI.mk Sample.db (mkDataFrame ["id"; "name"; "city"] [[VInt 2; VText "Bob"; VNull]])
       "people" "name" "bob" [[VInt 2; VText "Bob"; VNull]]) "/no/such/dir/bob.xlsx" =
    match Sample.writer "/no/such/dir/bob.xlsx"
            (mkDataFrame ["id"; "name"; "city"] [[VInt 2; VText "Bob"; VNull]]) with
    | None =>
        ([AppUI.AskSaveAs;
          AppUI.ToExcel "/no/such/dir/bob.xlsx"
            (mkDataFrame ["id"; "name"; "city"] [[VInt 2; VText "Bob"; VNull]]);
          AppUI.ShowInfo "Sucesso" "Exportado com sucesso!"], None)
    | Some e =>
        ([AppUI.AskSaveAs;
          AppUI.ToExcel "/no/such/dir/bob.xlsx"
            (mkDataFrame ["id"; "name"; "city"] [[VInt 2; VText "Bob"; VNull]])], Some e)
    end.
Proof.
  apply (export_writes_search_result Sample.writer
           (AppUI.mk Sample.db empty_frame "people" "name" "bob" [])
           (AppUI.mk Sample.db (mkDataFrame ["id"; "name"; "city"] [[VInt 2; VText "Bob"; VNull]])
              "people" "name" "bob" [[VInt 2; VText "Bob"; VNull]])
           "/no/such/dir/bob.xlsx");
    vm_compute; (reflexivity || discriminate).
Defined.

(** ** From a file to a search *)

(** X12.  Load, then search.  For a file whose header labels are distinct
    and not empty, loaded with success under a derived name that is a plain
    identifier, the search with the empty pattern on a header label that is
    a plain identifier returns the header as columns and, of the rows of the
    file, the first 500 whose cell under that label is not NULL. *)
Theorem search_after_load
    (fs : FileSystem) (db db' : Store) (p n c : string)
    (text : ascii -> CsvText) (i : nat) :
  fs p = Some text ->
  NoDup (csv_header (text (delimiter_of p))) ->
  ~ In "" (csv_header (text (delimiter_of p))) ->
  DataImporter.import_file fs db p = Ok (db', Some n) ->
  plain_name n = true ->
  plain_name c = true ->
  column_index (csv_header (text (delimiter_of p))) c = Some i ->
  DatabaseManager.search db' n c "" =
  Ok (mkDataFrame (csv_header (text (delimiter_of p)))
        (firstn 500 (filter (fun r => negb (is_null (cell i r)))
                       (csv_rows (text (delimiter_of p)))))).
Proof.
  intros Htext Hnd Hne H Hn Hc Hi.
  apply import_file_ok in H as (_ & df & Hread & Hfind & _).
  unfold read_csv in Hread. rewrite Htext in Hread.
  destruct (csv_header (text (delimiter_of p))) as [|h hs] eqn:Hh; [discriminate|].
  rewrite (labels_distinct _ [] (h :: hs) 0 Hnd Hne) in Hread by (intros x _ []).
  injection Hread as <-. cbn [df_columns df_rows] in Hfind.
  rewrite (search_column _ _ _ _ _ _ Hn Hc Hfind Hi) by (vm_compute; discriminate).
  cbn [tbl_columns tbl_rows].
  now rewrite (filter_ext_all _ (fun r => negb (is_null (cell i r))))
    by (intros r; apply cell_like_empty).
Qed.

Lemma search_after_load_witness :
  DatabaseManager.search Sample2.db_loaded "people" "name" "" =
  Ok (mkDataFrame ["id"; "name"]
        (firstn 500 (filter (fun r => negb (is_null (cell 1 r)))
                       [[VInt 1; VText "Alice"]; [VInt 2; VText "Bob"]]))).
Proof.
  apply (search_after_load Sample.disk [] Sample2.db_loaded "/data/people.csv" "people" "name"
           (Sample.file (mkCsv ["id"; "name"] [[VInt 1; VText "Alice"]; [VInt 2; VText "Bob"]])
                        (mkCsv ["id,name"] [[VText "1,Alice"]; [VText "2,Bob"]])) 1).
  - reflexivity.
  - repeat constructor; cbn; intuition discriminate.
  - cbn. intuition discriminate.
  - vm_compute. reflexivity.
  - vm_compute. reflexivity.
  - vm_compute. reflexivity.
  - vm_compute. reflexivity.
Defined.

(** ** Letter case in names *)

Lemma find_table_folded (db : Store) (t t' : string) :
  lower t = lower t' -> find_table db t = find_table db t'.
Proof.
  intros H. induction db as [|[n tb] db IH]; [reflexivity|].
  cbn [find_table]. unfold same_name. now rewrite H, IH.
Qed.

Lemma column_index_folded (cols : list string) (c c' : string) :
  lower c = lower c' -> column_index cols c = column_index cols c'.
Proof.
  intros H. induction cols as [|d cols IH]; [reflexivity|].
  cbn [column_index]. unfold same_name. now rewrite H, IH.
Qed.

(** X13.  Names are matched without regard to ASCII letter case.  For plain
    identifiers that differ in case only, [get_columns] answers the same for
    both table names, and a search that returns a result for one table and
    column name returns the same result for the other. *)
Theorem names_match_without_case
    (db : Store) (t t' c c' v : string) (df : DataFrame) :
  plain_name t = true -> plain_name t' = true -> lower t = lower t' ->
  plain_name c = true -> plain_name c' = true -> lower c = lower c' ->
  DatabaseManager.search db t c v = Ok df ->
  DatabaseManager.search db t' c' v = Ok df /\
  DatabaseManager.get_columns db t' = DatabaseManager.get_columns db t.
Proof.
  intros Ht Ht' Et Hc Hc' Ec H.
  rewrite (search_plain _ _ _ _ Ht Hc) in H.
  rewrite (search_plain _ _ _ _ Ht' Hc'), <- (find_table_folded _ _ _ Et).
  destruct (find_table db t) as [tb|] eqn:Hfind;
    [|destruct (builtin_table t); discriminate].
  split.
  - unfold resolve_name in *. rewrite <- (column_index_folded _ _ _ Ec), <- Ec.
    destruct (column_index (tbl_columns tb) c); [exact H|].
    destruct (mem (lower c) ["rowid"; "oid"; "_rowid_"]); [exact H|].
    destruct (String.eqb (lower c) "true"); [exact H|].
    destruct (String.eqb (lower c) "false"); [exact H | discriminate].
  - rewrite (get_columns_plain _ _ _ Ht Hfind).
    apply get_columns_plain; [assumption|].
    now rewrite <- (find_table_folded _ _ _ Et).
Qed.

Lemma names_match_without_case_witness :
  DatabaseManager.search Sample.db "PEOPLE" "Name" "bob" =
    Ok (mkDataFrame ["id"; "name"; "city"] [[VInt 2; VText "Bob"; VNull]]) /\
  DatabaseManager.get_columns Sample.db "PEOPLE" =
  DatabaseManager.get_columns Sample.db "people".
Proof.
  apply (names_match_without_case Sample.db "people" "PEOPLE" "name" "Name" "bob");
    vm_compute; reflexivity.
Defined.

(** ** The window *)

Lemma load_columns_keeps (w : Window.t) (shown : list AppUI.effect) :
  keeps_result w (Window.load_columns w shown).
Proof.
  unfold Window.load_columns.
  destruct (DatabaseManager.get_columns _ _) as [cols| |]; cbn; try reflexivity.
  destruct (existsb Window.display_column cols); reflexivity.
Qed.

Lemma load_tables_keeps (w : Window.t) (shown : list AppUI.effect) :
  keeps_result w (Window.load_tables w shown).
Proof.
  unfold Window.load_tables.
  destruct (DatabaseManager.get_tables _) as [|first rest]; [reflexivity|].
  match goal with |- keeps_result _ (Window.load_columns ?w1 _) =>
    pose proof (load_columns_keeps w1 shown) as H;
    destruct (Window.load_columns w1 shown); exact H
  end.
Qed.

(** X14.  A refresh of the columns clears the rows on display and keeps the
    held result: when [load_columns] returns, the tree has no rows, its
    columns and the choices of the column menu are the columns
    [get_columns] gave for the selected table, and [export_data] does after
    the refresh what it did before it. *)
Theorem refresh_keeps_held_result
    (w w' : Window.t) (shown shown' : list AppUI.effect) :
  Window.load_columns w shown = Window.Returned w' shown' ->
  AppUI.tree (Window.app w') = [] /\
  DatabaseManager.get_columns (AppUI.db (Window.app w))
    (AppUI.selected_table (Window.app w)) = Ok (Window.column_values w') /\
  Window.tree_columns w' = Window.column_values w' /\
  forall to_excel answer,
    AppUI.export_data to_excel (Window.app w') answer =
    AppUI.export_data to_excel (Window.app w) answer.
Proof.
  unfold Window.load_columns. intros H.
  destruct (DatabaseManager.get_columns _ _) as [cols| |]; try discriminate.
  destruct (existsb Window.display_column cols); [discriminate|].
  injection H as <- _. cbn. repeat split.
Qed.

Lemma refresh_keeps_held_result_witness :
  AppUI.tree (Window.app
    (Window.mk (AppUI.mk Sample.db Sample.earlier "people" "id" "x" [])
       ["people"] ["id"; "name"; "city"] ["id"; "name"; "city"])) = [] /\
  DatabaseManager.get_columns (AppUI.db (Window.app Sample2.window))
    (AppUI.selected_table (Window.app Sample2.window)) = Ok ["id"; "name"; "city"] /\
  ["id"; "name"; "city"] = ["id"; "name"; "city"] /\
  forall to_excel answer,
    AppUI.export_data to_excel (AppUI.mk Sample.db Sample.earlier "people" "id" "x" []) answer =
    AppUI.export_data to_excel (Window.app Sample2.window) answer.
Proof.
  apply (refresh_keeps_held_result Sample2.window
           (Window.mk (AppUI.mk Sample.db Sample.earlier "people" "id" "x" [])
              ["people"] ["id"; "name"; "city"] ["id"; "name"; "city"]) [] []).
  vm_compute. reflexivity.
Defined.

(** X15.  An import never resets the held result.  However [import_data]
    ends, by returning or by an exception of the refresh, the result held
    for export is the one held before; so after a table was loaded again,
    an export still writes the rows of the earlier search. *)
Theorem import_keeps_held_result
    (fs : FileSystem) (file_path : string) (w : Window.t) :
  keeps_result w (Window.import_data fs file_path w).
Proof.
  unfold Window.import_data.
  destruct (DataImporter.import_file fs _ file_path) as [[conn [n|]]|e|];
    try reflexivity.
  - destruct (String.eqb n ""); [reflexivity|].
    match goal with |- keeps_result _ (Window.load_tables ?w1 ?s) =>
      pose proof (load_tables_keeps w1 s) as H;
      destruct (Window.load_tables w1 s); exact H
    end.
  - destruct e; reflexivity.
Qed.

Lemma in_get_tables_after_load (fs : FileSystem) (db db' : Store) (p n : string) :
  DataImporter.import_file fs db p = Ok (db', Some n) ->
  In n (DatabaseManager.get_tables db') /\ n <> "".
Proof.
  intros H. apply import_file_inv in H as (df & _ & Hsql & _).
  pose proof Hsql as Hinv. apply to_sql_inv in Hinv as (-> & _).
  split.
  - unfold DatabaseManager.get_tables. rewrite map_app. apply in_or_app.
    right. now left.
  - intros ->. unfold to_sql in Hsql. cbn in Hsql. discriminate.
Qed.

(** X16.  After an import that returns for a chosen path, one dialog was
    shown, naming the derived table; the table menu lists the tables of the
    store, the new table among them; the table selected is the first of the
    list, whichever table was loaded; and the column menu lists the columns
    of the selected table. *)
Theorem import_data_refreshes
    (fs : FileSystem) (file_path n : string) (conn : Store) (w w' : Window.t)
    (shown : list AppUI.effect) :
  DataImporter.import_file fs (AppUI.db (Window.app w)) file_path = Ok (conn, Some n) ->
  Window.import_data fs file_path w = Window.Returned w' shown ->
  shown = [AppUI.ShowInfo "Sucesso" ("Tabela '" ++ n ++ "' criada!")] /\
  AppUI.db (Window.app w') = conn /\
  Window.table_values w' = DatabaseManager.get_tables conn /\
  In n (Window.table_values w') /\
  AppUI.selected_table (Window.app w') = hd "" (Window.table_values w') /\
  DatabaseManager.get_columns conn (AppUI.selected_table (Window.app w')) =
    Ok (Window.column_values w').
Proof.
  intros Himp H. destruct (in_get_tables_after_load _ _ _ _ _ Himp) as [Hin Hn].
  unfold Window.import_data in H. rewrite Himp in H.
  apply String.eqb_neq in Hn. rewrite Hn in H.
  unfold Window.load_tables, Window.with_db in H. cbn [Window.app AppUI.db] in H.
  destruct (DatabaseManager.get_tables conn) as [|first rest] eqn:Htables;
    [contradiction|].
  unfold Window.load_columns in H.
  cbn [Window.app AppUI.db AppUI.selected_table] in H.
  destruct (DatabaseManager.get_columns conn first) as [cols| |] eqn:Hcols;
    try discriminate.
  destruct (existsb Window.display_column cols); [discriminate|].
  injection H as <- <-. cbn. now repeat split.
Qed.

Lemma import_data_refreshes_witness :
  [AppUI.ShowInfo "Sucesso" "Tabela 'order' criada!"] =
    [AppUI.ShowInfo "Sucesso" ("Tabela '" ++ "order" ++ "' criada!")] /\
  (Sample.db ++ [("order", mkTable ["id"; "item"] [[VInt 1; VText "pen"]])])%list =
    (Sample.db ++ [("order", mkTable ["id"; "item"] [[VInt 1; VText "pen"]])])%list /\
  ["people"; "order"] =
    DatabaseManager.get_tables
      (Sample.db ++ [("order", mkTable ["id"; "item"] [[VInt 1; VText "pen"]])])%list /\
  In "order" ["people"; "order"] /\
  "people" = hd "" ["people"; "order"] /\
  DatabaseManager.get_columns
    (Sample.db ++ [("order", mkTable ["id"; "item"] [[VInt 1; VText "pen"]])])%list
    "people" = Ok ["id"; "name"; "city"].
Proof.
  apply (import_data_refreshes Sample.disk "/data/order.csv" "order"
           (Sample.db ++ [("order", mkTable ["id"; "item"] [[VInt 1; VText "pen"]])])%list
           Sample2.window
           (Window.mk
              (AppUI.mk (Sample.db ++ [("order", mkTable ["id"; "item"] [[VInt 1; VText "pen"]])])%list
                 Sample.earlier "people" "id" "x" [])
              ["people"; "order"] ["id"; "name"; "city"] ["id"; "name"; "city"])
           [AppUI.ShowInfo "Sucesso" "Tabela 'order' criada!"]);
    vm_compute; reflexivity.
Defined.

Lemma load_tables_reserved
    (w : Window.t) (shown : list AppUI.effect) (first : string) (rest : list string) :
  DatabaseManager.get_tables (AppUI.db (Window.app w)) = first :: rest ->
  word_shaped first = true ->
  mem (lower first) reserved = true ->
  Window.load_tables w shown =
  Window.Raised (OperationalError (SyntaxError (lower first)))
    (Window.mk
       (AppUI.mk (AppUI.db (Window.app w)) (AppUI.last_df (Window.app w)) first
          (AppUI.selected_column (Window.app w)) (AppUI.search_entry (Window.app w))
          (AppUI.tree (Window.app w)))
       (first :: rest) (Window.column_values w) (Window.tree_columns w))
    shown.
Proof.
  intros Htables Hw Hr. unfold Window.load_tables. rewrite Htables.
  unfold Window.load_columns. cbn [Window.app AppUI.db AppUI.selected_table].
  now rewrite (get_columns_reserved _ _ Hw Hr).
Qed.

(** X17.  When the first table of the store is named by a reserved word, an
    import that loads its file still ends with an exception: the store holds
    the new table and the dialog has announced it, the table menu is
    rewritten and the first table selected, and then the refresh of the
    columns raises the syntax error; the column menu and the tree stay as
    they were. *)
Theorem import_data_refresh_fails
    (fs : FileSystem) (file_path n first : string) (rest : list string)
    (conn : Store) (w : Window.t) :
  DataImporter.import_file fs (AppUI.db (Window.app w)) file_path = Ok (conn, Some n) ->
  DatabaseManager.get_tables conn = first :: rest ->
  word_shaped first = true ->
  mem (lower first) reserved = true ->
  Window.import_data fs file_path w =
  Window.Raised (OperationalError (SyntaxError (lower first)))
    (Window.mk
       (AppUI.mk conn (AppUI.last_df (Window.app w)) first
          (AppUI.selected_column (Window.app w)) (AppUI.search_entry (Window.app w))
          (AppUI.tree (Window.app w)))
       (first :: rest) (Window.column_values w) (Window.tree_columns w))
    [AppUI.ShowInfo "Sucesso" ("Tabela '" ++ n ++ "' criada!")].
Proof.
  intros Himp Htables Hw Hr.
  destruct (in_get_tables_after_load _ _ _ _ _ Himp) as [_ Hn].
  unfold Window.import_data. rewrite Himp.
  apply String.eqb_neq in Hn. rewrite Hn.
  now rewrite (load_tables_reserved _ _ first rest) by assumption.
Qed.

Lemma import_data_refresh_fails_witness :
  Window.import_data Sample.disk "/data/people.csv" Sample2.window_order =
  Window.Raised (OperationalError (SyntaxError (lower "order")))
    (Window.mk
       (AppUI.mk
          [("order", mkTable ["id"; "item"] [[VInt 1; VText "pen"]]);
           ("people", mkTable ["id"; "name"] [[VInt 1; VText "Alice"]; [VInt 2; VText "Bob"]])]
          (AppUI.last_df (Window.app Sample2.window_order)) "order"
          (AppUI.selected_column (Window.app Sample2.window_order))
          (AppUI.search_entry (Window.app Sample2.window_order))
          (AppUI.tree (Window.app Sample2.window_order)))
       ("order" :: ["people"]) (Window.column_values Sample2.window_order)
       (Window.tree_columns Sample2.window_order))
    [AppUI.ShowInfo "Sucesso" ("Tabela '" ++ "people" ++ "' criada!")].
Proof.
  apply (import_data_refresh_fails Sample.disk "/data/people.csv" "people" "order" ["people"]
           [("order", mkTable ["id"; "item"] [[VInt 1; VText "pen"]]);
            ("people", mkTable ["id"; "name"] [[VInt 1; VText "Alice"]; [VInt 2; VText "Bob"]])]
           Sample2.window_order);
    vm_compute; reflexivity.
Defined.

(** X18.  The application does not start on a database whose first table is
    named by a reserved word: the first refresh, run from the constructor,
    raises the syntax error before any window state is complete. *)
Theorem startup_fails_on_reserved_table
    (conn : Store) (first : string) (rest : list string) :
  DatabaseManager.get_tables conn = first :: rest ->
  word_shaped first = true ->
  mem (lower first) reserved = true ->
  exists w,
    Window.startup conn =
    Window.Raised (OperationalError (SyntaxError (lower first))) w [].
Proof.
  intros Htables Hw Hr. unfold Window.startup. eexists.
  now apply (load_tables_reserved (Window.fresh conn) [] first rest).
Qed.

Lemma startup_fails_on_reserved_table_witness :
  exists w,
    Window.startup Sample2.db_order =
    Window.Raised (OperationalError (SyntaxError (lower "order"))) w [].
Proof.
  apply (startup_fails_on_reserved_table Sample2.db_order "order" ["people"]);
    vm_compute; reflexivity.
Defined.

(** X19.  When the application starts, nothing is held for export, whatever
    the database still holds from earlier runs: after a start that returns,
    [export_data] shows the warning and writes nothing. *)
Theorem startup_holds_nothing
    (conn : Store) (w : Window.t) (shown : list AppUI.effect)
    (to_excel : ExcelWriter) (answer : string) :
  Window.startup conn = Window.Returned w shown ->
  AppUI.export_data to_excel (Window.app w) answer =
  ([AppUI.ShowWarning "Aviso" "Nenhum dado para exportar."], None).
Proof.
  intros H. pose proof (load_tables_keeps (Window.fresh conn) []) as Hk.
  unfold Window.startup in H. rewrite H in Hk. cbn in Hk.
  unfold AppUI.export_data. now rewrite Hk.
Qed.

Lemma startup_holds_nothing_witness :
  AppUI.export_data Sample.writer
    (Window.app (Window.mk (AppUI.mk Sample.db empty_frame "people" "id" "" [])
                   ["people"] ["id"; "name"; "city"] ["id"; "name"; "city"]))
    "/tmp/out.xlsx" =
  ([AppUI.ShowWarning "Aviso" "Nenhum dado para exportar."], None).
Proof.
  apply (startup_holds_nothing Sample.db
           (Window.mk (AppUI.mk Sample.db empty_frame "people" "id" "" [])
              ["people"] ["id"; "name"; "city"] ["id"; "name"; "city"]) []
           Sample.writer "/tmp/out.xlsx").
  vm_compute. reflexivity.
Defined.

(** ** The delimiter of a load: claim C9 *)









